(** * The Arvados platform adapter ([arvados_platform.py])

    A shallow embedding of the adapter and the properties of its
    operations.  Python values are modelled as the code has them: API
    resources are records, the mapping of a serialised task is a finite
    map, list responses are dictionaries holding their page under
    ["items"], raised exceptions are an explicit [Raise] outcome, and the
    remote API is a store threaded through every call together with the
    trace of the requests issued. *)

From Stdlib Require Import ZArith NArith Ascii String List Bool Lia.
From stdpp Require Import base option list gmap strings pretty.

(** ** Python outcomes *)

(** The exception classes the adapter raises or lets through. *)
Inductive PyExn : Type :=
| AttributeError (attr : string)
| IndexError
| KeyError (key : string)
| TypeError
| UnicodeDecodeError
| IOError
| ApiError
| CalledProcessError (returncode : Z) (output : string)
| Exception (msg : string).

(** A call either returns a value or raises. *)
Inductive Result (A : Type) : Type :=
| Ok (a : A)
| Raise (e : PyExn).
Arguments Ok {A} a.
Arguments Raise {A} e.

(** ** Strings *)

Definition LF : ascii := "010"%char.
Definition SLASH : ascii := "/"%char.

(** [s.startswith(p)] *)
Fixpoint startswith (s p : string) {struct p} : bool :=
  match p, s with
  | EmptyString, _ => true
  | String a p', String b s' => Ascii.eqb a b && startswith s' p'
  | String _ _, EmptyString => false
  end.

(** [s.split(sep)] for a one-character separator: never the empty list. *)
Fixpoint split (sep : ascii) (s : string) : list string :=
  match s with
  | EmptyString => [EmptyString]
  | String c r =>
      if Ascii.eqb c sep then EmptyString :: split sep r
      else match split sep r with
           | h :: t => String c h :: t
           | [] => [String c EmptyString]
           end
  end.

(** [sep.join(l)] *)
Fixpoint join (sep : string) (l : list string) : string :=
  match l with
  | [] => EmptyString
  | [x] => x
  | x :: r => x +:+ sep +:+ join sep r
  end.


(** The character [c] does not occur in [s]. *)
Fixpoint free_of (c : ascii) (s : string) : bool :=
  match s with
  | EmptyString => true
  | String a r => negb (Ascii.eqb a c) && free_of c r
  end.

(** *** The version annotation: [re.search(r' \(.*\)$', wf_name)] *)




(** *** Decoding the runner's output *)

(** The continuation ranges a UTF-8 lead byte asks for, [None] for a byte
    that cannot start a character. *)
Definition utf8_lead (n : N) : option (list (N * N)) :=
  if (n <=? 127)%N then Some []
  else if (194 <=? n)%N && (n <=? 223)%N then Some [(128, 191)%N]
  else if (n =? 224)%N then Some [(160, 191)%N; (128, 191)%N]
  else if (225 <=? n)%N && (n <=? 236)%N then Some [(128, 191)%N; (128, 191)%N]
  else if (n =? 237)%N then Some [(128, 159)%N; (128, 191)%N]
  else if (238 <=? n)%N && (n <=? 239)%N then Some [(128, 191)%N; (128, 191)%N]
  else if (n =? 240)%N then Some [(144, 191)%N; (128, 191)%N; (128, 191)%N]
  else if (241 <=? n)%N && (n <=? 243)%N
       then Some [(128, 191)%N; (128, 191)%N; (128, 191)%N]
  else if (n =? 244)%N then Some [(128, 143)%N; (128, 191)%N; (128, 191)%N]
  else None.

(** The bytes are well-formed UTF-8, [expect] being the continuation
    bytes still owed to the current character. *)
Fixpoint utf8_ok (expect : list (N * N)) (bytes : string) : bool :=
  match bytes with
  | EmptyString => match expect with [] => true | _ :: _ => false end
  | String c r =>
      let n := N_of_ascii c in
      match expect with
      | (lo, hi) :: e => (lo <=? n)%N && (n <=? hi)%N && utf8_ok e r
      | [] => match utf8_lead n with
              | Some e => utf8_ok e r
              | None => false
              end
      end
  end.

(** [runner_out.decode("UTF-8")]: the text is kept as its UTF-8 bytes, so
    decoding is the strict validity check. *)
Definition decode_utf8 (bytes : string) : Result string :=
  if utf8_ok [] bytes then Ok bytes else Raise UnicodeDecodeError.

(** [list(filter(None, runner_log.split("\n")))]: the non-empty lines. *)
Definition nonempty_lines (runner_log : string) : list string :=
  filter (λ l, l ≠ EmptyString) (split LF runner_log).

(** [xs[-1]] *)
Definition last_item {A} (xs : list A) : Result A :=
  match last xs with
  | Some x => Ok x
  | None => Raise IndexError
  end.

(** ** The task handle *)

Section TaskHandle.
(** The values a task holds are whatever the caller stored: the two
    operations below never look inside them. *)
Context {V : Type}.

Record ArvadosTask : Type := mkTask {
  container_request : V;
  container : V
}.

(** [ArvadosTask.to_dict] *)
Definition to_dict (self : ArvadosTask) : gmap string V :=
  <["container_request" := container_request self]>
    (<["container" := container self]> ∅).

(** [task_dict[key]] *)
Definition getitem (task_dict : gmap string V) (key : string) : Result V :=
  match task_dict !! key with
  | Some v => Ok v
  | None => Raise (KeyError key)
  end.

(** [ArvadosTask.from_dict] *)
Definition from_dict (task_dict : gmap string V) : Result ArvadosTask :=
  match getitem task_dict "container_request" with
  | Raise e => Raise e
  | Ok cr =>
      match getitem task_dict "container" with
      | Raise e => Raise e
      | Ok c => Ok (mkTask cr c)
      end
  end.

(** What the JSON object hook returns: a task or the mapping itself. *)
Inductive Decoded : Type :=
| DecodedTask (t : ArvadosTask)
| DecodedObj (obj : gmap string V).

(** [arvados_task_decoder] *)
Definition arvados_task_decoder (obj : gmap string V) : Decoded :=
  match obj !! "container_request", obj !! "container" with
  | Some cr, Some c => DecodedTask (mkTask cr c)
  | _, _ => DecodedObj obj
  end.
End TaskHandle.
Arguments ArvadosTask V : clear implicits.
Arguments Decoded V : clear implicits.


(** ** API resources *)

(** A project is only ever read: its identifier scopes the lookups. *)
Record Project : Type := mkProject {
  grp_uuid : string;
  grp_name : string
}.

(** A file of a collection, addressed by stream path and name. *)
Record ArvFile : Type := mkFile {
  stream_name : string;
  name : string;
  data : string
}.

#[global] Instance ArvFile_eq_dec : EqDecision ArvFile.
Proof. solve_decision. Defined.

(** The body of [collections().create]. *)
Record CollectionBody : Type := mkCollectionBody {
  coll_owner_uuid : string;
  coll_name : string;
  coll_description : string;
  preserve_version : bool
}.

Record Collection : Type := mkCollection {
  coll_uuid : string;
  coll_body : CollectionBody;
  portable_data_hash : string;
  coll_files : list ArvFile
}.

(** A workflow without its identifier: what is left after
    [del workflow['uuid']], and the body of [workflows().create]. *)
Record WorkflowBody : Type := mkWorkflowBody {
  wf_owner_uuid : string;
  wf_name : string;
  wf_description : string;
  wf_definition : string
}.

Record Workflow : Type := mkWorkflow {
  wf_uuid : string;
  wf_body : WorkflowBody
}.

(** [workflow['owner_uuid'] = owner] *)
Definition set_owner (owner : string) (b : WorkflowBody) : WorkflowBody :=
  {| wf_owner_uuid := owner;
     wf_name := wf_name b;
     wf_description := wf_description b;
     wf_definition := wf_definition b |}.

(** A submission record; a record that names no container has
    [cr_container_uuid = None]. *)
Record ContainerRequest : Type := mkRequest {
  cr_uuid : string;
  cr_container_uuid : option string
}.

(** An execution record: [exit_code] is an integer or null. *)
Record Container : Type := mkContainer {
  ctr_uuid : string;
  exit_code : option Z;
  state : string
}.

(** The values the adapter stores in a task: [None], a submission record
    or an execution record. *)
Inductive PyVal : Type :=
| PyNone
| PyRequest (r : ContainerRequest)
| PyContainer (c : Container).

(** The decoded JSON object a list call returns: a dictionary whose
    ["items"] entry holds the page of matches. *)
Record ListResponse (A : Type) : Type := mkResponse {
  items : list A
}.
Arguments mkResponse {A} items.
Arguments items {A} _.

(** The attribute lookup [response.append]: a dictionary has no such
    attribute, so the lookup raises before any argument is evaluated. *)
Definition response_append {A} (response : ListResponse A)
  : Result (A → ListResponse A) :=
  Raise (AttributeError "append").

(** A filter triple of a list call.  [FilterLike attr p] stands for
    [[attr, "like", f"{p}%"]], read as "the attribute starts with [p]":
    the pattern is [p] followed by the wildcard, and [p] itself is taken
    literally. *)
Inductive Filter : Type :=
| FilterEq (attr operand : string)
| FilterLike (attr prefix : string).

(** The requests sent to the API and to the content store. *)
Inductive ApiCall : Type :=
| CollectionsList (filters : list Filter)
| CollectionsCreate (body : CollectionBody)
| CollectionRead (uuid : string)
| CollectionSave (uuid : string)
| WorkflowsGet (uuid : string)
| WorkflowsList (filters : list Filter)
| WorkflowsCreate (body : WorkflowBody)
| ContainerRequestsGet (uuid : string)
| ContainersGet (uuid : option string).

(** The state of the remote platform, with the trace of the requests the
    adapter has issued (oldest first).  [minted] counts the identifiers
    the server has assigned and [content_hash] is its hash of a
    collection's content. *)
Record Api : Type := mkApi {
  collections : list Collection;
  workflows : list Workflow;
  container_requests : list ContainerRequest;
  containers : list Container;
  minted : nat;
  content_hash : list ArvFile → string;
  requests : list ApiCall
}.

Definition with_requests (rs : list ApiCall) (api : Api) : Api :=
  mkApi (collections api) (workflows api) (container_requests api)
        (containers api) (minted api) (content_hash api) rs.

Definition with_collections (cs : list Collection) (api : Api) : Api :=
  mkApi cs (workflows api) (container_requests api)
        (containers api) (minted api) (content_hash api) (requests api).

Definition with_workflows (ws : list Workflow) (api : Api) : Api :=
  mkApi (collections api) ws (container_requests api)
        (containers api) (minted api) (content_hash api) (requests api).

Definition with_minted (n : nat) (api : Api) : Api :=
  mkApi (collections api) (workflows api) (container_requests api)
        (containers api) n (content_hash api) (requests api).

(** The identifier the server gives to its [n]-th new record. *)
Definition fresh_uuid (kind : string) (n : nat) : string :=
  "zzzzz-" +:+ kind +:+ "-" +:+ pretty n.

(** ** Calls: a state and exception monad over the platform *)

Definition M (A : Type) : Type := Api → Result A * Api.

Definition ret {A} (a : A) : M A := λ api, (Ok a, api).
Definition raise {A} (e : PyExn) : M A := λ api, (Raise e, api).
Definition lift {A} (r : Result A) : M A := λ api, (r, api).

Definition bind {A B} (m : M A) (k : A → M B) : M B :=
  λ api, match m api with
         | (Ok a, api') => k a api'
         | (Raise e, api') => (Raise e, api')
         end.

Notation "x <- m ;; k" := (bind m (λ x, k))
  (at level 100, m at next level, right associativity, only parsing).
Notation "m ;;; k" := (bind m (λ _, k))
  (at level 100, right associativity, only parsing).


(** The platform after one more request. *)
Definition sent (c : ApiCall) (api : Api) : Api :=
  with_requests (requests api ++ [c]) api.

Definition send (c : ApiCall) : M unit :=
  λ api, (Ok tt, sent c api).

(** *** Filters *)

Definition coll_attr (c : Collection) (attr : string) : option string :=
  if String.eqb attr "uuid" then Some (coll_uuid c)
  else if String.eqb attr "owner_uuid" then Some (coll_owner_uuid (coll_body c))
  else if String.eqb attr "name" then Some (coll_name (coll_body c))
  else if String.eqb attr "description" then Some (coll_description (coll_body c))
  else if String.eqb attr "portable_data_hash" then Some (portable_data_hash c)
  else None.

Definition wf_attr (w : Workflow) (attr : string) : option string :=
  if String.eqb attr "uuid" then Some (wf_uuid w)
  else if String.eqb attr "owner_uuid" then Some (wf_owner_uuid (wf_body w))
  else if String.eqb attr "name" then Some (wf_name (wf_body w))
  else if String.eqb attr "description" then Some (wf_description (wf_body w))
  else if String.eqb attr "definition" then Some (wf_definition (wf_body w))
  else None.

Definition satisfies {A} (attr_of : A → string → option string)
    (r : A) (f : Filter) : bool :=
  match f with
  | FilterEq attr operand =>
      match attr_of r attr with
      | Some v => String.eqb v operand
      | None => false
      end
  | FilterLike attr prefix =>
      match attr_of r attr with
      | Some v => startswith v prefix
      | None => false
      end
  end.

Definition select {A} (attr_of : A → string → option string)
    (filters : list Filter) (rs : list A) : list A :=
  List.filter (λ r, forallb (satisfies attr_of r) filters) rs.

(** *** Collections *)

(** [api.collections().list(filters=...).execute()] *)
Definition collections_list (filters : list Filter)
  : M (ListResponse Collection) :=
  send (CollectionsList filters) ;;;
  λ api, (Ok (mkResponse (select coll_attr filters (collections api))), api).

(** [api.collections().create(body=...).execute()]: the new collection is
    empty and gets an identifier from the server. *)
Definition collections_create (body : CollectionBody) : M Collection :=
  send (CollectionsCreate body) ;;;
  λ api,
    let c := mkCollection (fresh_uuid "4zz18" (minted api)) body
                          (content_hash api []) [] in
    (Ok c, with_minted (S (minted api)) (with_collections (collections api ++ [c]) api)).

(** Loading the content of a collection by identifier, as
    [CollectionReader(uuid)] and [Collection(uuid, ...)] do. *)
Definition collection_load (uuid : string) : M (list ArvFile) :=
  send (CollectionRead uuid) ;;;
  λ api, match List.find (λ c, String.eqb (coll_uuid c) uuid) (collections api) with
         | Some c => (Ok (coll_files c), api)
         | None => (Raise ApiError, api)
         end.

(** What [target.save()] makes of a stored collection: the one saved
    gets the new content and its hash. *)
Definition stored (api : Api) (uuid : string) (files : list ArvFile)
    (c : Collection) : Collection :=
  if String.eqb (coll_uuid c) uuid
  then mkCollection (coll_uuid c) (coll_body c) (content_hash api files) files
  else c.

(** [target.save()] *)
Definition collection_save (uuid : string) (files : list ArvFile) : M unit :=
  send (CollectionSave uuid) ;;;
  λ api,
    (Ok tt, with_collections (List.map (stored api uuid files) (collections api)) api).

(** *** Workflows *)


(** [api.workflows().list(filters=...).execute()] *)
Definition workflows_list (filters : list Filter) : M (ListResponse Workflow) :=
  send (WorkflowsList filters) ;;;
  λ api, (Ok (mkResponse (select wf_attr filters (workflows api))), api).

(** [api.workflows().create(body=...).execute()] *)
Definition workflows_create (body : WorkflowBody) : M Workflow :=
  send (WorkflowsCreate body) ;;;
  λ api,
    let w := mkWorkflow (fresh_uuid "7fd4e" (minted api)) body in
    (Ok w, with_minted (S (minted api)) (with_workflows (workflows api ++ [w]) api)).

(** *** Submission and execution records *)

(** [arvados.api().container_requests().get(uuid=...).execute()] *)
Definition container_requests_get (uuid : string) : M ContainerRequest :=
  send (ContainerRequestsGet uuid) ;;;
  λ api, match List.find (λ r, String.eqb (cr_uuid r) uuid) (container_requests api) with
         | Some r => (Ok r, api)
         | None => (Raise ApiError, api)
         end.

(** [arvados.api().containers().get(uuid=...).execute()] *)
Definition containers_get (uuid : option string) : M Container :=
  send (ContainersGet uuid) ;;;
  λ api, match uuid with
         | None => (Raise ApiError, api)
         | Some u =>
             match List.find (λ c, String.eqb (ctr_uuid c) u) (containers api) with
             | Some c => (Ok c, api)
             | None => (Raise ApiError, api)
             end
         end.

(** ** The adapter: collections and files *)

(** [xs[i]] *)
Definition item {A} (xs : list A) (i : nat) : Result A :=
  match xs !! i with
  | Some x => Ok x
  | None => Raise IndexError
  end.

(** [os.path.basename(p)]: what follows the last slash. *)
Definition basename (p : string) : string :=
  default EmptyString (last (split SLASH p)).

(** The path under which a file is addressed in its collection:
    [f"{res_file.stream_name()}/{res_file.name()}"]. *)
Definition path_of (f : ArvFile) : string :=
  stream_name f +:+ "/" +:+ name f.

Definition at_path (path : string) (f : ArvFile) : bool :=
  String.eqb (path_of f) path.

(** The content store's
    [target.copy(path, target_path=path, source_collection=source, overwrite=overwrite)],
    as the adapter calls it, with one path for both ends: the file found
    at [path] in the source is put at the same path of the target; an
    I/O error is raised when the source has no such file, or when the
    target already has one and [overwrite] is off. *)
Definition collection_copy (path : string) (source_collection : list ArvFile)
    (overwrite : bool) (target : list ArvFile) : Result (list ArvFile) :=
  match List.find (at_path path) source_collection with
  | None => Raise IOError
  | Some f =>
      if existsb (at_path path) target
      then if overwrite
           then Ok (List.filter (λ g, negb (at_path path g)) target ++ [f])
           else Raise IOError
      else Ok (target ++ [f])
  end.

(** The file names never copied between collections. *)
Definition reserved_names : list string := ["cwl.input.json"; "cwl.output.json"].

(** [_get_files_list_in_collection] *)
Definition _get_files_list_in_collection (collection_uuid : string)
    (subdirectory_path : option string) : M (list ArvFile) :=
  file_list <- collection_load collection_uuid ;;
  match subdirectory_path with
  | Some (String c d) =>
      ret (List.filter
             (λ fl, String.eqb (basename (stream_name fl)) (String c d))
             file_list)
  | Some EmptyString | None => ret file_list
  end.

(** The loop of [_copy_files_from_source_dest_collection]: [target] is
    the collection being filled; an I/O error of one copy is swallowed
    and the loop goes on. *)
Fixpoint copy_each (source : list ArvFile) (overwrite : bool)
    (all_files : list ArvFile) (target : list ArvFile)
  : Result (list ArvFile) :=
  match all_files with
  | [] => Ok target
  | res_file :: rest =>
      if bool_decide (name res_file ∉ reserved_names)
      then
        let target_path := stream_name res_file +:+ "/" +:+ name res_file in
        match collection_copy target_path source overwrite target with
        | Ok target' => copy_each source overwrite rest target'
        | Raise IOError => copy_each source overwrite rest target
        | Raise e => Raise e
        end
      else copy_each source overwrite rest target
  end.

(** [_copy_files_from_source_dest_collection] *)
Definition _copy_files_from_source_dest_collection
    (source_coll_uuid dest_coll_uuid : string) (overwrite : bool) : M unit :=
  source <- collection_load source_coll_uuid ;;
  target <- collection_load dest_coll_uuid ;;
  all_files <- _get_files_list_in_collection source_coll_uuid None ;;
  target' <- lift (copy_each source overwrite all_files target) ;;
  collection_save dest_coll_uuid target'.

(** [copy_folder] *)
Definition copy_folder (reference_project : Project) (reference_folder : string)
    (destination_project : Project) : M (option Collection) :=
  collection_name <-
    lift (if startswith reference_folder "/"
          then item (split SLASH reference_folder) 1
          else item (split SLASH reference_folder) 0) ;;
  search_result <-
    collections_list [FilterEq "owner_uuid" (grp_uuid reference_project);
                      FilterEq "name" collection_name] ;;
  match items search_result with
  | [] => ret None
  | reference_collection :: _ =>
      search_result <-
        collections_list [FilterEq "owner_uuid" (grp_uuid destination_project);
                          FilterEq "name" collection_name] ;;
      destination_collection <-
        match items search_result with
        | existing :: _ => ret existing
        | [] =>
            collections_create
              {| coll_owner_uuid := grp_uuid destination_project;
                 coll_name := collection_name;
                 coll_description := coll_description (coll_body reference_collection);
                 preserve_version := true |}
        end ;;
      _copy_files_from_source_dest_collection
        (coll_uuid reference_collection) (coll_uuid destination_collection) false ;;;
      ret (Some destination_collection)
  end.


(** The path segments [get_file_id] works on: [file_path.split('/')],
    without its first segment when that one is empty. *)
Definition folder_tree_of (file_path : string) : Result (list string) :=
  let folder_tree := split SLASH file_path in
  match item folder_tree 0 with
  | Raise e => Raise e
  | Ok EmptyString => Ok (drop 1 folder_tree)
  | Ok (String _ _) => Ok folder_tree
  end.

(** [get_file_id] *)
Definition get_file_id (project : Project) (file_path : string) : M string :=
  if startswith file_path "http" || startswith file_path "keep"
  then ret file_path
  else
    folder_tree <- lift (folder_tree_of file_path) ;;
    collection_name <- lift (item folder_tree 0) ;;
    search_result <-
      collections_list [FilterEq "owner_uuid" (grp_uuid project);
                        FilterEq "name" collection_name] ;;
    match items search_result with
    | collection :: _ =>
        ret ("keep:" +:+ portable_data_hash collection +:+ "/"
               +:+ join "/" (drop 1 folder_tree))
    | [] =>
        raise (Exception ("Collection " +:+ collection_name
                            +:+ " not found in project " +:+ grp_uuid project))
    end.

(** ** The adapter: workflows *)


(** The loop of [copy_workflows] over the reference workflows. *)
Fixpoint copy_missing (destination_project : Project)
    (reference_items : list Workflow)
    (destination_workflows : ListResponse Workflow)
  : M (ListResponse Workflow) :=
  match reference_items with
  | [] => ret destination_workflows
  | wf :: rest =>
      if bool_decide (wf_name (wf_body wf)
                        ∉ List.map (λ wf, wf_name (wf_body wf))
                                   (items destination_workflows))
      then
        let wf := set_owner (grp_uuid destination_project) (wf_body wf) in
        append <- lift (response_append destination_workflows) ;;
        created <- workflows_create wf ;;
        copy_missing destination_project rest (append created)
      else copy_missing destination_project rest destination_workflows
  end.

(** [copy_workflows] *)
Definition copy_workflows (reference_project destination_project : Project)
  : M (ListResponse Workflow) :=
  reference_workflows <-
    workflows_list [FilterEq "owner_uuid" (grp_uuid reference_project)] ;;
  destination_workflows <-
    workflows_list [FilterEq "owner_uuid" (grp_uuid destination_project)] ;;
  copy_missing destination_project (items reference_workflows) destination_workflows.

(** ** The adapter: tasks *)

Abbreviation Task := (ArvadosTask PyVal).

(** [v['uuid']] *)
Definition val_uuid (v : PyVal) : Result string :=
  match v with
  | PyNone => Raise TypeError
  | PyRequest r => Ok (cr_uuid r)
  | PyContainer c => Ok (ctr_uuid c)
  end.

(** [v['container_uuid']] *)
Definition val_container_uuid (v : PyVal) : Result (option string) :=
  match v with
  | PyNone => Raise TypeError
  | PyRequest r => Ok (cr_container_uuid r)
  | PyContainer _ => Raise (KeyError "container_uuid")
  end.

(** [v['exit_code']] *)
Definition val_exit_code (v : PyVal) : Result (option Z) :=
  match v with
  | PyNone => Raise TypeError
  | PyRequest _ => Raise (KeyError "exit_code")
  | PyContainer c => Ok (exit_code c)
  end.

(** [v['state']] *)
Definition val_state (v : PyVal) : Result string :=
  match v with
  | PyNone => Raise TypeError
  | PyRequest _ => Raise (KeyError "state")
  | PyContainer c => Ok (state c)
  end.

(** [code == n] for an exit code that is an integer or null. *)
Definition code_is (code : option Z) (n : Z) : bool :=
  match code with
  | Some z => Z.eqb z n
  | None => false
  end.

(** The refresh of [get_task_state]: both records are fetched again and
    stored in the task. *)
Definition refresh_task (task : Task) : M Task :=
  uuid <- lift (val_uuid (container_request task)) ;;
  fetched_request <- container_requests_get uuid ;;
  let task := mkTask (PyRequest fetched_request) (container task) in
  container_uuid <- lift (val_container_uuid (container_request task)) ;;
  fetched_container <- containers_get container_uuid ;;
  ret (mkTask (container_request task) (PyContainer fetched_container)).

(** The state derivation of [get_task_state], on the execution record the
    task holds. *)
Definition derive_state (task : Task) : Result string :=
  match val_exit_code (container task) with
  | Raise e => Raise e
  | Ok code =>
      if code_is code 0 then Ok "Complete"
      else if code_is code 1 then Ok "Failed"
      else
        match val_state (container task) with
        | Raise e => Raise e
        | Ok st =>
            if String.eqb st "Running" then Ok "Running"
            else if String.eqb st "Cancelled" then Ok "Cancelled"
            else if bool_decide (st ∈ ["Locked"; "Queued"]) then Ok "Queued"
            else Raise (Exception ("TODO: Unknown task state: " +:+ st))
        end
  end.

(** [get_task_state]: the state, with the task as the call leaves it. *)
Definition get_task_state (task : Task) (refresh : bool) : M (Task * string) :=
  task <- (if refresh then refresh_task task else ret task) ;;
  st <- lift (derive_state task) ;;
  ret (task, st).

(** *** Submission *)

(** How the external runner ended: it ran and exited with a status and
    its combined output, or it could not be started. *)
Inductive ProcessOutcome : Type :=
| Exited (returncode : Z) (output : string)
| NotStarted.

(** [subprocess.check_output(cmd, stderr=subprocess.STDOUT)] *)
Definition check_output (outcome : ProcessOutcome) : Result string :=
  match outcome with
  | Exited 0 output => Ok output
  | Exited returncode output => Raise (CalledProcessError returncode output)
  | NotStarted => Raise IOError
  end.

Section Submit.
(** The parameters document of a submission. *)
Context {Params : Type}.

(** The machine the adapter runs on: [write_parameters] creates the
    temporary file and dumps the parameters into it, giving the file's
    name, and [run] launches a command line. *)
Record Host : Type := mkHost {
  write_parameters : Params → Result string;
  run : list string → ProcessOutcome
}.

(** [submit_task] *)
Definition submit_task (host : Host) (name : string) (project : Project)
    (workflow : Workflow) (parameters : Params) : Result (option Task) :=
  match write_parameters host parameters with
  | Raise e => Raise e
  | Ok parameter_file_name =>
      let cmd_str :=
        ["arvados-cwl-runner"; "--no-wait";
         "--defer-download";
         "--varying-url-params=AWSAccessKeyId,Signature,Expires";
         "--prefer-cached-downloads";
         "--debug";
         "--project-uuid"; grp_uuid project;
         "--name"; name;
         wf_uuid workflow;
         parameter_file_name] in
      let attempt :=
        match check_output (run host cmd_str) with
        | Raise e => Raise e
        | Ok runner_out =>
            match decode_utf8 runner_out with
            | Raise e => Raise e
            | Ok runner_log =>
                match last_item (nonempty_lines runner_log) with
                | Raise e => Raise e
                | Ok container_request_uuid =>
                    Ok (Some (mkTask (PyRequest (mkRequest container_request_uuid None))
                                     PyNone))
                end
            end
        end in
      match attempt with
      | Raise (CalledProcessError _ _) => Ok None
      | Raise IOError => Ok None
      | r => r
      end
  end.
End Submit.
Arguments Host Params : clear implicits.

(** ** What the filters select *)

(** The collection belongs to [owner] and is called [name]. *)
Definition owned_named (owner name : string) (c : Collection) : Prop :=
  coll_owner_uuid (coll_body c) = owner ∧ coll_name (coll_body c) = name.


(** Every reference name is already among the names of the response. *)
Definition all_present (reference_items : list Workflow)
    (response : ListResponse Workflow) : bool :=
  forallb (λ wf, bool_decide (wf_name (wf_body wf)
                                ∈ List.map (λ wf, wf_name (wf_body wf)) (items response)))
          reference_items.

(** The command line of a submission. *)
Definition runner_command (name : string) (project : Project) (workflow : Workflow)
    (parameter_file_name : string) : list string :=
  ["arvados-cwl-runner"; "--no-wait"; "--defer-download";
   "--varying-url-params=AWSAccessKeyId,Signature,Expires";
   "--prefer-cached-downloads"; "--debug";
   "--project-uuid"; grp_uuid project; "--name"; name;
   wf_uuid workflow; parameter_file_name].

(** One turn of the loop of the bulk copy: what [target] is after
    [res_file] has been dealt with. *)
Definition copy_one (source : list ArvFile) (overwrite : bool)
    (target : list ArvFile) (res_file : ArvFile) : list ArvFile :=
  if bool_decide (name res_file ∉ reserved_names)
  then match collection_copy (path_of res_file) source overwrite target with
       | Ok target' => target'
       | Raise _ => target
       end
  else target.

(** The loop of the bulk copy as the iteration of its turns. *)
Definition copy_all (source : list ArvFile) (overwrite : bool)
    (all_files target : list ArvFile) : list ArvFile :=
  fold_left (copy_one source overwrite) all_files target.

(** The steps [copy_folder] and [copy_reference_data] share once the name
    of the collection is known: look the collection up in the reference
    project, look it up or create it in the destination project, copy the
    files.  The result is the destination record. *)
Definition copy_named (reference_project destination_project : Project)
    (collection_name : string) : M (option Collection) :=
  search_result <-
    collections_list [FilterEq "owner_uuid" (grp_uuid reference_project);
                      FilterEq "name" collection_name] ;;
  match items search_result with
  | [] => ret None
  | reference_collection :: _ =>
      search_result <-
        collections_list [FilterEq "owner_uuid" (grp_uuid destination_project);
                          FilterEq "name" collection_name] ;;
      destination_collection <-
        match items search_result with
        | existing :: _ => ret existing
        | [] =>
            collections_create
              {| coll_owner_uuid := grp_uuid destination_project;
                 coll_name := collection_name;
                 coll_description := coll_description (coll_body reference_collection);
                 preserve_version := true |}
        end ;;
      _copy_files_from_source_dest_collection
        (coll_uuid reference_collection) (coll_uuid destination_collection) false ;;;
      ret (Some destination_collection)
  end.






(** [k] line feeds. *)
Fixpoint blank_lines (k : nat) : string :=
  match k with
  | O => EmptyString
  | S k' => String LF (blank_lines k')
  end.

(** ** The adapter: further operations *)

(** *** Paths *)

(** [(p[:i], p[i:])] with [i = p.rfind('/') + 1]. *)
Fixpoint cut_last_slash (p : string) : string * string :=
  match p with
  | EmptyString => (EmptyString, EmptyString)
  | String c r =>
      if free_of SLASH r
      then if Ascii.eqb c SLASH then (String c EmptyString, r)
           else (EmptyString, String c r)
      else let (head, tail) := cut_last_slash r in (String c head, tail)
  end.

(** [s == '/' * len(s)] *)
Fixpoint all_slashes (s : string) : bool :=
  match s with
  | EmptyString => true
  | String c r => Ascii.eqb c SLASH && all_slashes r
  end.

(** [s.rstrip('/')] *)
Fixpoint rstrip_slash (s : string) : string :=
  match s with
  | EmptyString => EmptyString
  | String c r =>
      match rstrip_slash r with
      | EmptyString => if Ascii.eqb c SLASH then EmptyString else String c EmptyString
      | String a b => String c (String a b)
      end
  end.

(** [s.lstrip('/')] *)
Fixpoint lstrip_slash (s : string) : string :=
  match s with
  | EmptyString => EmptyString
  | String c r => if Ascii.eqb c SLASH then lstrip_slash r else String c r
  end.

(** [os.path.split(p)]: what precedes the last slash, without its
    trailing slashes unless it consists of slashes only, and what follows
    the last slash. *)
Definition os_path_split (p : string) : string * string :=
  let (head, tail) := cut_last_slash p in
  if negb (String.eqb head EmptyString) && negb (all_slashes head)
  then (rstrip_slash head, tail)
  else (head, tail).

(** [get_folder_id] *)
Definition get_folder_id (project : Project) (folder_path : string)
  : M (option string) :=
  let (collection_name, folder_path) := os_path_split folder_path in
  let collection_name := lstrip_slash collection_name in
  search_result <-
    collections_list [FilterEq "owner_uuid" (grp_uuid project);
                      FilterEq "name" collection_name] ;;
  match items search_result with
  | collection :: _ =>
      ret (Some ("keep:" +:+ coll_uuid collection +:+ "/" +:+ folder_path))
  | [] => ret None
  end.

(** *** The JSON encoder *)

Section Encoder.
Context {V : Type}.

(** What the encoder is asked to convert: a task, or an object of a type
    the standard encoder does not know either. *)
Inductive Unserialisable : Type :=
| ATask (t : ArvadosTask V)
| Foreign.

(** [ArvadosTaskEncoder.default]: the mapping of a task; for anything
    else the default of the base class, which raises [TypeError]. *)
Definition encoder_default (o : Unserialisable) : Result (gmap string V) :=
  match o with
  | ATask t => Ok (to_dict t)
  | Foreign => Raise TypeError
  end.
End Encoder.
Arguments Unserialisable V : clear implicits.

(** *** Projects and the records of a project *)

(** What the listings of submission records filter on. *)
Record RequestMeta : Type := mkMeta {
  req_name : string;
  req_owner_uuid : string;
  req_priority : Z
}.

(** The part of the platform the operations below read besides the
    records of [Api]: the project registry, the name, owner and priority
    of the submission record with a given identifier, and the container
    the adapter itself runs in, if it runs in one.  These reads are not
    recorded in the trace of [Api]. *)
Record Site : Type := mkSite {
  groups : list Project;
  request_meta : string → RequestMeta;
  current_container : option Container
}.

Definition grp_attr (p : Project) (attr : string) : option string :=
  if String.eqb attr "uuid" then Some (grp_uuid p)
  else if String.eqb attr "name" then Some (grp_name p)
  else None.

(** [api.groups().list(filters=...).execute()] *)
Definition groups_list (site : Site) (filters : list Filter) : ListResponse Project :=
  mkResponse (select grp_attr filters (groups site)).

(** [get_project_by_name] *)
Definition get_project_by_name (site : Site) (project_name : string)
  : option Project :=
  let search_result := groups_list site [FilterEq "name" project_name] in
  match items search_result with
  | p :: _ => Some p
  | [] => None
  end.

(** [get_project_by_id] *)
Definition get_project_by_id (site : Site) (project_id : string) : option Project :=
  let search_result := groups_list site [FilterEq "uuid" project_id] in
  match items search_result with
  | p :: _ => Some p
  | [] => None
  end.

(** [api.containers().current().execute()]: an API error outside of a
    container. *)
Definition containers_current (site : Site) : Result Container :=
  match current_container site with
  | Some c => Ok c
  | None => Raise ApiError
  end.

(** [api.container_requests().list(filters=[["container_uuid", "=", uuid]])] *)
Definition requests_of_container (api : Api) (uuid : string)
  : ListResponse ContainerRequest :=
  mkResponse
    (List.filter (λ r, bool_decide (cr_container_uuid r = Some uuid))
                 (container_requests api)).

(** [get_project]: only the API error is caught. *)
Definition get_project (site : Site) (api : Api) : Result (option Project) :=
  match containers_current site with
  | Raise ApiError => Ok None
  | Raise e => Raise e
  | Ok current =>
      let request := requests_of_container api (ctr_uuid current) in
      match item (items request) 0 with
      | Raise ApiError => Ok None
      | Raise e => Raise e
      | Ok first =>
          Ok (get_project_by_id site (req_owner_uuid (request_meta site (cr_uuid first))))
      end
  end.




Definition with_container_requests (rs : list ContainerRequest) (api : Api) : Api :=
  mkApi (collections api) (workflows api) rs
        (containers api) (minted api) (content_hash api) (requests api).

(** [api.container_requests().delete(uuid=...).execute()]: an API error
    when there is no such record. *)
Definition container_requests_delete (uuid : string) : M unit :=
  λ api,
    if existsb (λ r, String.eqb (cr_uuid r) uuid) (container_requests api)
    then (Ok tt,
          with_container_requests
            (List.filter (λ r, negb (String.eqb (cr_uuid r) uuid))
                         (container_requests api)) api)
    else (Raise ApiError, api).

(** [delete_task] *)
Definition delete_task (task : Task) : M unit :=
  uuid <- lift (val_uuid (container_request task)) ;;
  container_requests_delete uuid.

(** [detect]: the environment is a mapping from names to values. *)
Definition detect (environ : gmap string string) : bool :=
  match environ !! "ARVADOS_API_HOST" with
  | Some (String _ _) => true
  | Some EmptyString | None => false
  end.

(** *** Notions used to state the properties of these operations *)

(** The first character of [s], if any, is not a slash. *)
Definition no_leading_slash (s : string) : Prop := lstrip_slash s = s.

(** The last character of [s], if any, is not a slash. *)
Definition no_trailing_slash (s : string) : Prop := rstrip_slash s = s.

(** The five states [get_task_state] reports. *)
Definition task_states : list string :=
  ["Complete"; "Failed"; "Running"; "Cancelled"; "Queued"].


(** The two platforms hold the same records: the requests traced may
    differ, nothing else. *)
Definition same_records (api api' : Api) : Prop :=
  api' = with_requests (requests api') api.



(** * Properties *)

(** ** Strings *)

Lemma startswith_app (p r : string) : startswith (p +:+ r) p = true.
Proof.
  induction p as [|a p IH]; simpl; [done|].
  by rewrite Ascii.eqb_refl, IH.
Qed.


Lemma app_cons (c : ascii) (s t : string) : String c s +:+ t = String c (s +:+ t).
Proof. reflexivity. Qed.

Lemma app_empty_r (s : string) : s +:+ "" = s.
Proof. induction s as [|c s IH]; [done|]. change (String c (s +:+ "") = String c s). by f_equal. Qed.




Lemma split_nonempty (sep : ascii) (s : string) : split sep s ≠ [].
Proof.
  destruct s as [|c r]; simpl; [discriminate|].
  destruct (Ascii.eqb c sep); [discriminate|]. destruct (split sep r); discriminate.
Qed.

Lemma split_cons_other (sep c : ascii) (r : string) :
  Ascii.eqb c sep = false →
  ∃ h t, split sep r = h :: t ∧ split sep (String c r) = String c h :: t.
Proof.
  intros H. simpl. rewrite H.
  destruct (split sep r) as [|h t] eqn:E; [by destruct (split_nonempty sep r)|].
  by exists h, t.
Qed.

Lemma split_free (sep : ascii) (s : string) :
  free_of sep s = true → split sep s = [s].
Proof.
  induction s as [|c r IH]; simpl; [done|].
  intros [Hc Hr]%andb_true_iff. apply negb_true_iff in Hc.
  by rewrite Hc, (IH Hr).
Qed.

Lemma split_app_sep (sep : ascii) (a b : string) :
  free_of sep a = true →
  split sep (a +:+ String sep b) = a :: split sep b.
Proof.
  induction a as [|c r IH]; simpl.
  - intros _. by rewrite Ascii.eqb_refl.
  - intros [Hc Hr]%andb_true_iff. apply negb_true_iff in Hc.
    by rewrite Hc, (IH Hr).
Qed.

Lemma join_split (sep : ascii) (s : string) :
  join (String sep EmptyString) (split sep s) = s.
Proof.
  induction s as [|c r IH]; simpl; [done|].
  destruct (Ascii.eqb c sep) eqn:E.
  - apply Ascii.eqb_eq in E as ->.
    destruct (split sep r) as [|h t] eqn:Er; [by destruct (split_nonempty sep r)|].
    simpl in *. by rewrite IH.
  - destruct (split sep r) as [|h t] eqn:Er; [by destruct (split_nonempty sep r)|].
    destruct t; simpl in *; by rewrite <- IH.
Qed.

(** ** Running calls *)

Lemma bind_ok {A B} (m : M A) (k : A → M B) (api api' : Api) (a : A) :
  m api = (Ok a, api') → bind m k api = k a api'.
Proof. intros H. unfold bind. by rewrite H. Qed.

Lemma bind_raise {A B} (m : M A) (k : A → M B) (api api' : Api) (e : PyExn) :
  m api = (Raise e, api') → bind m k api = (Raise e, api').
Proof. intros H. unfold bind. by rewrite H. Qed.

Lemma collections_list_run (filters : list Filter) (api : Api) :
  collections_list filters api
  = (Ok (mkResponse (select coll_attr filters (collections api))),
     sent (CollectionsList filters) api).
Proof. reflexivity. Qed.

Lemma workflows_list_run (filters : list Filter) (api : Api) :
  workflows_list filters api
  = (Ok (mkResponse (select wf_attr filters (workflows api))),
     sent (WorkflowsList filters) api).
Proof. reflexivity. Qed.



Lemma collections_create_run (body : CollectionBody) (api : Api) :
  let c := mkCollection (fresh_uuid "4zz18" (minted api)) body (content_hash api []) [] in
  collections_create body api
  = (Ok c, with_minted (S (minted api))
             (with_collections (collections api ++ [c])
                               (sent (CollectionsCreate body) api))).
Proof. reflexivity. Qed.

Lemma collection_load_run (uuid : string) (api : Api) :
  collection_load uuid api
  = (match List.find (λ c, String.eqb (coll_uuid c) uuid) (collections api) with
     | Some c => Ok (coll_files c)
     | None => Raise ApiError
     end, sent (CollectionRead uuid) api).
Proof.
  unfold collection_load, bind, send. cbn.
  by destruct (List.find _ (collections api)).
Qed.

Lemma collection_save_run (uuid : string) (files : list ArvFile) (api : Api) :
  collection_save uuid files api
  = (Ok tt, with_collections (List.map (stored api uuid files) (collections api))
                             (sent (CollectionSave uuid) api)).
Proof. reflexivity. Qed.

(** ** The task handle *)

Section TaskHandleFacts.
Context {V : Type}.
Implicit Types (t : ArvadosTask V) (obj : gmap string V).

Lemma to_dict_container_request t :
  to_dict t !! "container_request" = Some (container_request t).
Proof. unfold to_dict. by rewrite lookup_insert_eq. Qed.

Lemma to_dict_container t : to_dict t !! "container" = Some (container t).
Proof.
  unfold to_dict. rewrite lookup_insert_ne by done. by rewrite lookup_insert_eq.
Qed.

(** The mapping of a task has the two keys and no other. *)
Lemma to_dict_dom t : dom (to_dict t) = {["container_request"; "container"]}.
Proof. unfold to_dict. rewrite !dom_insert_L, dom_empty_L. set_solver. Qed.

(** C9. The task handle round-trips through its mapping: from_dict applied
    to to_dict of a task gives back a task with the same submission record
    and the same execution record; and the JSON decoder turns a mapping
    into a task (made of the values under the two keys) exactly when the
    mapping contains both 'container_request' and 'container', and gives
    back every other mapping unchanged. *)
Theorem task_mapping_roundtrip_and_decoder :
  (∀ t, ∃ t', from_dict (to_dict t) = Ok t'
              ∧ container_request t' = container_request t
              ∧ container t' = container t)
  ∧ (∀ obj,
       "container_request" ∈ dom obj → "container" ∈ dom obj →
       ∃ t', arvados_task_decoder obj = DecodedTask t'
             ∧ obj !! "container_request" = Some (container_request t')
             ∧ obj !! "container" = Some (container t'))
  ∧ (∀ obj,
       ¬ ("container_request" ∈ dom obj ∧ "container" ∈ dom obj) →
       arvados_task_decoder obj = DecodedObj obj).
Proof.
  split; [|split].
  - intros t. exists t. unfold from_dict, getitem.
    rewrite to_dict_container_request, to_dict_container. by destruct t.
  - intros obj [cr Hcr]%elem_of_dom [c Hc]%elem_of_dom.
    exists (mkTask cr c). unfold arvados_task_decoder. by rewrite Hcr, Hc.
  - intros obj Hno. unfold arvados_task_decoder.
    destruct (obj !! "container_request") as [cr|] eqn:Hcr; [|done].
    destruct (obj !! "container") as [c|] eqn:Hc; [|done].
    destruct Hno. split; apply elem_of_dom; eauto.
Qed.

(** Decoding the mapping of a task gives the task back. *)
Lemma decoder_to_dict t : arvados_task_decoder (to_dict t) = DecodedTask t.
Proof.
  unfold arvados_task_decoder.
  rewrite to_dict_container_request, to_dict_container. by destruct t.
Qed.
End TaskHandleFacts.

(** ** Task states *)

Lemma code_is_true (code : option Z) (n : Z) : code_is code n = true ↔ code = Some n.
Proof.
  destruct code as [z|]; simpl; [|split; discriminate].
  rewrite Z.eqb_eq. split; congruence.
Qed.

Lemma code_is_false (code : option Z) (n : Z) : code_is code n = false ↔ code ≠ Some n.
Proof.
  rewrite <- code_is_true. destruct (code_is code n); split; congruence.
Qed.

(** The state is derived after the optional refresh, from the task the
    refresh leaves. *)
Lemma get_task_state_after_refresh (task task' : Task) (refresh : bool)
    (api api' : Api) (r : Result string) :
  (if refresh then refresh_task task else ret task) api = (Ok task', api') →
  derive_state task' = r →
  get_task_state task refresh api
  = (match r with Ok st => Ok (task', st) | Raise e => Raise e end, api').
Proof.
  intros Hrefresh <-. unfold get_task_state, bind. rewrite Hrefresh.
  unfold lift. by destruct (derive_state task').
Qed.

(** C2. A task whose execution record has exit code 0 is 'Complete'
    whatever the record's state field says (so exit code 0 with state
    "Running" gives 'Complete'): the exit code is compared with 0, then
    with 1, before the state is looked at, and the state is compared with
    Running, then Cancelled, then Locked and Queued. *)
Theorem get_task_state_exit_code_first (task task' : Task) (refresh : bool)
    (api api' : Api) (c : Container) :
  (if refresh then refresh_task task else ret task) api = (Ok task', api') →
  container task' = PyContainer c →
  (exit_code c = Some 0%Z →
     get_task_state task refresh api = (Ok (task', "Complete"), api'))
  ∧ (exit_code c = Some 1%Z →
     get_task_state task refresh api = (Ok (task', "Failed"), api'))
  ∧ (exit_code c ≠ Some 0%Z → exit_code c ≠ Some 1%Z → state c = "Running" →
     get_task_state task refresh api = (Ok (task', "Running"), api'))
  ∧ (exit_code c ≠ Some 0%Z → exit_code c ≠ Some 1%Z → state c = "Cancelled" →
     get_task_state task refresh api = (Ok (task', "Cancelled"), api'))
  ∧ (exit_code c ≠ Some 0%Z → exit_code c ≠ Some 1%Z →
     state c ∈ ["Locked"; "Queued"] →
     get_task_state task refresh api = (Ok (task', "Queued"), api')).
Proof.
  intros Hrefresh Hc.
  assert (Hgo : ∀ st, derive_state task' = Ok st →
            get_task_state task refresh api = (Ok (task', st), api')).
  { intros st Hst. by rewrite (get_task_state_after_refresh _ _ _ _ _ _ Hrefresh Hst). }
  unfold derive_state in Hgo. rewrite Hc in Hgo. simpl in Hgo.
  repeat split.
  - intros H0. apply Hgo. by rewrite H0.
  - intros H1. apply Hgo. by rewrite H1.
  - intros H0%code_is_false H1%code_is_false Hst. apply Hgo.
    by rewrite H0, H1, Hst.
  - intros H0%code_is_false H1%code_is_false Hst. apply Hgo.
    by rewrite H0, H1, Hst.
  - intros H0%code_is_false H1%code_is_false Hst. apply Hgo.
    rewrite H0, H1.
    apply elem_of_cons in Hst as [-> | Hst]; [done|].
    apply elem_of_cons in Hst as [-> | Hst]; [done|].
    by apply elem_of_nil in Hst.
Qed.

(** The record [{exit_code: 0, state: "Running"}] is reported 'Complete'. *)
Lemma get_task_state_exit_code_first_witness :
  let task := mkTask PyNone (PyContainer (mkContainer "c" (Some 0%Z) "Running")) in
  let api := mkApi [] [] [] [] 0 (λ _, "") [] in
  get_task_state task false api = (Ok (task, "Complete"), api).
Proof.
  intros task api.
  exact (proj1 (get_task_state_exit_code_first task task false api api
                  (mkContainer "c" (Some 0%Z) "Running") eq_refl eq_refl) eq_refl).
Defined.

(** C8. A task whose execution record has an exit code other than 0 and 1
    and a state outside Queued, Locked, Running and Cancelled makes
    get_task_state raise an error, which reaches the caller; no state and
    no null result is returned. *)
Theorem get_task_state_unknown_state_raises (task task' : Task) (refresh : bool)
    (api api' : Api) (c : Container) :
  (if refresh then refresh_task task else ret task) api = (Ok task', api') →
  container task' = PyContainer c →
  exit_code c ≠ Some 0%Z → exit_code c ≠ Some 1%Z →
  state c ∉ ["Queued"; "Locked"; "Running"; "Cancelled"] →
  get_task_state task refresh api
  = (Raise (Exception ("TODO: Unknown task state: " +:+ state c)), api').
Proof.
  intros Hrefresh Hc H0%code_is_false H1%code_is_false Hst.
  rewrite (get_task_state_after_refresh _ _ _ _ _
             (Raise (Exception ("TODO: Unknown task state: " +:+ state c))) Hrefresh);
    [done|].
  unfold derive_state. rewrite Hc. simpl. rewrite H0, H1.
  destruct (String.eqb_spec (state c) "Running") as [E|_].
  { destruct Hst. rewrite E, !elem_of_cons. auto. }
  destruct (String.eqb_spec (state c) "Cancelled") as [E|_].
  { destruct Hst. rewrite E, !elem_of_cons. auto. }
  rewrite bool_decide_eq_false_2; [done|].
  intros Hin. apply Hst. revert Hin. rewrite !elem_of_cons. tauto.
Qed.

Lemma get_task_state_unknown_state_raises_witness :
  let task := mkTask PyNone (PyContainer (mkContainer "c" None "Paused")) in
  let api := mkApi [] [] [] [] 0 (λ _, "") [] in
  get_task_state task false api
  = (Raise (Exception "TODO: Unknown task state: Paused"), api).
Proof.
  intros task api.
  apply (get_task_state_unknown_state_raises task task false api api
           (mkContainer "c" None "Paused")); try reflexivity; try discriminate.
  simpl. intros H. repeat (apply elem_of_cons in H as [H|H]; [discriminate H|]).
  by apply elem_of_nil in H.
Defined.

(** ** File references *)

(** C10. Every path that begins with the letters "http" or with the
    letters "keep" is returned unchanged and no collection is looked up
    (the platform and the trace of requests are left as they were), also
    when no "://" follows: a relative path whose first segment is
    "keepsake" or "httpdata" passes through too.  The test is a literal
    prefix test. *)
Theorem get_file_id_literal_prefix_passthrough (project : Project) (api : Api) :
  (∀ rest, get_file_id project ("http" +:+ rest) api = (Ok ("http" +:+ rest), api))
  ∧ (∀ rest, get_file_id project ("keep" +:+ rest) api = (Ok ("keep" +:+ rest), api))
  ∧ get_file_id project "keepsake/reads.fq" api = (Ok "keepsake/reads.fq", api)
  ∧ get_file_id project "httpdata/reads.fq" api = (Ok "httpdata/reads.fq", api).
Proof.
  assert (Hhttp : ∀ rest,
            get_file_id project ("http" +:+ rest) api = (Ok ("http" +:+ rest), api)).
  { intros rest. unfold get_file_id. by rewrite startswith_app. }
  assert (Hkeep : ∀ rest,
            get_file_id project ("keep" +:+ rest) api = (Ok ("keep" +:+ rest), api)).
  { intros rest. unfold get_file_id.
    by rewrite (startswith_app "keep" rest), orb_true_r. }
  split; [done|]. split; [done|]. split.
  - apply (Hkeep "sake/reads.fq").
  - apply (Hhttp "data/reads.fq").
Qed.

(** What the name filters of the collection lookups select. *)
Lemma select_owned_named_iff (owner name : string) (c : Collection) :
  forallb (satisfies coll_attr c) [FilterEq "owner_uuid" owner; FilterEq "name" name] = true
  ↔ owned_named owner name c.
Proof.
  unfold owned_named. simpl. rewrite andb_true_r, andb_true_iff, !String.eqb_eq. done.
Qed.

Lemma select_first {A} (attr_of : A → string → option string)
    (filters : list Filter) (pre : list A) (x : A) (post : list A) :
  Forall (λ r, forallb (satisfies attr_of r) filters ≠ true) pre →
  forallb (satisfies attr_of x) filters = true →
  select attr_of filters (pre ++ x :: post) = x :: select attr_of filters post.
Proof.
  intros Hpre Hx. unfold select. induction Hpre as [|r pre Hr _ IH]; simpl.
  - by rewrite Hx.
  - apply not_true_is_false in Hr. by rewrite Hr.
Qed.

Lemma select_none {A} (attr_of : A → string → option string)
    (filters : list Filter) (rs : list A) :
  Forall (λ r, forallb (satisfies attr_of r) filters ≠ true) rs →
  select attr_of filters rs = [].
Proof.
  intros H. unfold select. induction H as [|r rs Hr _ IH]; simpl; [done|].
  apply not_true_is_false in Hr. by rewrite Hr.
Qed.

Lemma select_In {A} (attr_of : A → string → option string)
    (filters : list Filter) (rs : list A) (x : A) :
  x ∈ select attr_of filters rs
  ↔ x ∈ rs ∧ forallb (satisfies attr_of x) filters = true.
Proof. unfold select. rewrite !list_elem_of_In. apply filter_In. Qed.

(** The first collection of [owner] called [name], when there is one. *)
Lemma select_collection_first (owner name : string)
    (pre : list Collection) (c : Collection) (post : list Collection) :
  Forall (λ x, ¬ owned_named owner name x) pre → owned_named owner name c →
  ∃ more,
    select coll_attr [FilterEq "owner_uuid" owner; FilterEq "name" name]
           (pre ++ c :: post) = c :: more.
Proof.
  intros Hpre Hc. eexists. apply select_first.
  - eapply Forall_impl; [exact Hpre|]. intros x Hx. by rewrite select_owned_named_iff.
  - by apply select_owned_named_iff.
Qed.

Lemma select_collection_none (owner name : string) (cs : list Collection) :
  Forall (λ x, ¬ owned_named owner name x) cs →
  select coll_attr [FilterEq "owner_uuid" owner; FilterEq "name" name] cs = [].
Proof.
  intros H. apply select_none. eapply Forall_impl; [exact H|].
  intros x Hx. by rewrite select_owned_named_iff.
Qed.

(** The segments of an absolute path: the collection and what follows. *)
Lemma folder_tree_of_absolute (coll rest : string) :
  free_of SLASH coll = true →
  folder_tree_of ("/" +:+ coll +:+ "/" +:+ rest) = Ok (coll :: split SLASH rest).
Proof.
  intros Hfree. unfold folder_tree_of.
  change ("/" +:+ coll +:+ "/" +:+ rest)
    with (String SLASH (coll +:+ String SLASH rest)).
  cbn [split]. rewrite Ascii.eqb_refl. cbn [item lookup list_lookup drop].
  by rewrite split_app_sep.
Qed.

(** C6. get_file_id gives back unchanged a path that already is a content
    reference (get_file_id(project, "http://example/x") is
    "http://example/x"); for any other path, whose first segment [coll] is
    the name of a collection of the project, it returns "keep:H/" followed
    by the remaining segments joined by slashes, H being the content hash
    of the (first) collection of that name in the project; and when the
    project has no collection of that name it raises an error whose message
    carries the collection name and the project id. *)
Theorem get_file_id_resolves_in_project (project : Project) (api : Api) :
  let looked_up coll :=
    sent (CollectionsList [FilterEq "owner_uuid" (grp_uuid project);
                           FilterEq "name" coll]) api in
  get_file_id project "http://example/x" api = (Ok "http://example/x", api)
  ∧ (∀ file_path coll rest,
       startswith file_path "http" = false → startswith file_path "keep" = false →
       folder_tree_of file_path = Ok (coll :: rest) →
       (∀ pre c post,
          collections api = pre ++ c :: post →
          Forall (λ x, ¬ owned_named (grp_uuid project) coll x) pre →
          owned_named (grp_uuid project) coll c →
          get_file_id project file_path api
          = (Ok ("keep:" +:+ portable_data_hash c +:+ "/" +:+ join "/" rest),
             looked_up coll))
       ∧ (Forall (λ x, ¬ owned_named (grp_uuid project) coll x) (collections api) →
          get_file_id project file_path api
          = (Raise (Exception ("Collection " +:+ coll +:+ " not found in project "
                                 +:+ grp_uuid project)),
             looked_up coll))).
Proof.
  intros looked_up. split; [done|].
  intros file_path coll rest Hhttp Hkeep Htree.
  unfold get_file_id. rewrite Hhttp, Hkeep. cbn [orb].
  unfold bind, lift. rewrite Htree. cbn [item lookup list_lookup].
  rewrite collections_list_run. cbn [items].
  split.
  - intros pre c post Hcs Hpre Hc.
    destruct (select_collection_first _ _ pre c post Hpre Hc) as [more Hsel].
    rewrite Hcs, Hsel. done.
  - intros Hnone. by rewrite (select_collection_none _ _ _ Hnone).
Qed.

(** "/coll1/sub/file.txt", with [coll1] of hash [H] in the project, gives
    "keep:H/sub/file.txt". *)
Lemma get_file_id_resolves_in_project_witness :
  let project := mkProject "p1" "Project" in
  let coll1 := mkCollection "c1" (mkCollectionBody "p1" "coll1" "" false) "H" [] in
  let api := mkApi [coll1] [] [] [] 0 (λ _, "") [] in
  fst (get_file_id project "/coll1/sub/file.txt" api) = Ok "keep:H/sub/file.txt".
Proof.
  intros project coll1 api.
  destruct (get_file_id_resolves_in_project project api) as [_ Hpath].
  destruct (Hpath "/coll1/sub/file.txt" "coll1" ["sub"; "file.txt"]
              eq_refl eq_refl eq_refl) as [Hfound _].
  rewrite (Hfound [] coll1 [] eq_refl (Forall_nil_2 _) (conj eq_refl eq_refl)).
  reflexivity.
Defined.

(** For an absolute path the result is the hash followed by the rest of
    the path as it was written. *)
Lemma get_file_id_absolute_path (project : Project) (api : Api)
    (coll rest : string) (pre : list Collection) (c : Collection)
    (post : list Collection) :
  free_of SLASH coll = true →
  collections api = pre ++ c :: post →
  Forall (λ x, ¬ owned_named (grp_uuid project) coll x) pre →
  owned_named (grp_uuid project) coll c →
  fst (get_file_id project ("/" +:+ coll +:+ "/" +:+ rest) api)
  = Ok ("keep:" +:+ portable_data_hash c +:+ "/" +:+ rest).
Proof.
  intros Hfree Hcs Hpre Hc.
  unfold get_file_id.
  change (startswith ("/" +:+ coll +:+ "/" +:+ rest) "http") with false.
  change (startswith ("/" +:+ coll +:+ "/" +:+ rest) "keep") with false.
  cbn [orb]. unfold bind, lift. rewrite (folder_tree_of_absolute _ _ Hfree).
  cbn [item lookup list_lookup drop].
  rewrite collections_list_run. cbn [items].
  destruct (select_collection_first _ _ pre c post Hpre Hc) as [more Hsel].
  rewrite Hcs, Hsel. unfold ret. cbn [fst].
  pose proof (join_split SLASH rest) as Hjoin. unfold SLASH in *.
  by rewrite drop_0, Hjoin.
Qed.

(** ** Workflows *)














(** *** Copying all the workflows of a project *)

(** The loop stops at the first workflow to copy: looking up [append] in
    the response raises, and nothing has been created. *)
Lemma copy_missing_run (destination_project : Project)
    (reference_items : list Workflow) (response : ListResponse Workflow) (api : Api) :
  copy_missing destination_project reference_items response api
  = (if all_present reference_items response
     then Ok response else Raise (AttributeError "append"), api).
Proof.
  induction reference_items as [|wf rest IH]; [done|].
  cbn [copy_missing all_present forallb].
  destruct (decide (wf_name (wf_body wf)
                      ∈ List.map (λ wf, wf_name (wf_body wf)) (items response)))
    as [Hin|Hout].
  - rewrite (bool_decide_eq_false_2 _ (λ H, H Hin)), (bool_decide_eq_true_2 _ Hin).
    exact IH.
  - by rewrite (bool_decide_eq_true_2 _ Hout), (bool_decide_eq_false_2 _ Hout).
Qed.

Lemma copy_workflows_run (reference_project destination_project : Project) (api : Api) :
  let reference := [FilterEq "owner_uuid" (grp_uuid reference_project)] in
  let destination := [FilterEq "owner_uuid" (grp_uuid destination_project)] in
  let response := mkResponse (select wf_attr destination (workflows api)) in
  copy_workflows reference_project destination_project api
  = (if all_present (select wf_attr reference (workflows api)) response
     then Ok response else Raise (AttributeError "append"),
     sent (WorkflowsList destination) (sent (WorkflowsList reference) api)).
Proof.
  intros reference destination response. unfold copy_workflows.
  rewrite (bind_ok _ _ _ _ _ (workflows_list_run reference api)).
  rewrite (bind_ok _ _ _ _ _ (workflows_list_run destination _)).
  cbn [items]. apply copy_missing_run.
Qed.

(** No call of copy_workflows creates a workflow. *)
Lemma copy_workflows_creates_nothing (reference_project destination_project : Project)
    (api : Api) :
  workflows (snd (copy_workflows reference_project destination_project api))
  = workflows api.
Proof. by rewrite copy_workflows_run. Qed.

(** C1 (the code departs from it). With the workflow "Align" in the
    reference project and no workflow in the destination project,
    copy_workflows does not return the destination list with a copy of
    "Align" appended: looking up [append] on the list response raises
    AttributeError, before the create request is sent, and the platform
    holds the same workflows as before. *)
Theorem copy_workflows_raises_instead_of_copying :
  let reference_project := mkProject "ref" "Reference" in
  let destination_project := mkProject "dst" "Destination" in
  let align := mkWorkflow "w1" (mkWorkflowBody "ref" "Align" "" "cwl") in
  let api := mkApi [] [align] [] [] 0 (λ _, "") [] in
  ∃ api',
    copy_workflows reference_project destination_project api
    = (Raise (AttributeError "append"), api')
    ∧ workflows api' = [align]
    ∧ requests api' = [WorkflowsList [FilterEq "owner_uuid" "ref"];
                       WorkflowsList [FilterEq "owner_uuid" "dst"]].
Proof. intros. eexists. by rewrite copy_workflows_run. Qed.


(** *** Copying one workflow twice *)


Lemma select_app {A} (attr_of : A → string → option string)
    (filters : list Filter) (l1 l2 : list A) :
  select attr_of filters (l1 ++ l2)
  = select attr_of filters l1 ++ select attr_of filters l2.
Proof. unfold select. apply List.filter_app. Qed.


(** ** Submission *)

Lemma split_app (sep : ascii) (a b : string) :
  split sep (a +:+ String sep b) = split sep a ++ split sep b.
Proof.
  induction a as [|c r IH]; rewrite ?app_cons; cbn [split String.append].
  - change ("" +:+ String sep b) with (String sep b). cbn [split].
    by rewrite Ascii.eqb_refl.
  - destruct (Ascii.eqb c sep); [by rewrite IH|].
    rewrite IH. destruct (split sep r) as [|h t] eqn:E; [|done].
    by destruct (split_nonempty sep r).
Qed.

Lemma nonempty_lines_app (a b : string) :
  nonempty_lines (a +:+ String LF b) = nonempty_lines a ++ nonempty_lines b.
Proof. unfold nonempty_lines. by rewrite split_app, filter_app. Qed.

Lemma nonempty_lines_blank (k : nat) : nonempty_lines (blank_lines k) = [].
Proof.
  unfold nonempty_lines. induction k as [|k IH]; [done|].
  cbn [blank_lines split]. rewrite Ascii.eqb_refl.
  by rewrite filter_cons_False by (intros H; by apply H).
Qed.

Lemma nonempty_lines_single (line : string) (k : nat) :
  line ≠ EmptyString → free_of LF line = true →
  nonempty_lines (line +:+ blank_lines k) = [line].
Proof.
  intros Hne Hfree. destruct k as [|k].
  - cbn [blank_lines]. rewrite app_empty_r. unfold nonempty_lines.
    rewrite (split_free _ _ Hfree). by rewrite filter_cons_True.
  - cbn [blank_lines]. rewrite nonempty_lines_app, nonempty_lines_blank.
    unfold nonempty_lines. rewrite (split_free _ _ Hfree).
    by rewrite filter_cons_True.
Qed.

(** The last non-empty line of an output: the line that only blank
    lines follow. *)
Lemma last_nonempty_line (before line : string) (k : nat) :
  line ≠ EmptyString → free_of LF line = true →
  last (nonempty_lines (line +:+ blank_lines k)) = Some line
  ∧ last (nonempty_lines (before +:+ String LF (line +:+ blank_lines k))) = Some line.
Proof.
  intros Hne Hfree. split.
  - by rewrite nonempty_lines_single.
  - rewrite nonempty_lines_app, nonempty_lines_single by done. apply last_snoc.
Qed.

Section SubmitFacts.
Context {Params : Type}.
Implicit Types (host : Host Params) (parameters : Params).

(** C5, as the code has it. Once the parameter file is written: if the
    runner exits with status 0 and its combined output is valid UTF-8 with
    at least one non-empty line, the result is a task whose submission
    record holds the last non-empty line as its identifier and whose
    execution record is absent (None); if the runner exits with another
    status (1, say), or cannot be started because of an I/O error, the
    result is null and nothing is raised. *)
Theorem submit_task_outcomes host (name : string) (project : Project)
    (workflow : Workflow) parameters (parameter_file_name : string) :
  write_parameters host parameters = Ok parameter_file_name →
  let outcome := run host (runner_command name project workflow parameter_file_name) in
  (∀ output line,
     outcome = Exited 0 output →
     utf8_ok [] output = true →
     last (nonempty_lines output) = Some line →
     submit_task host name project workflow parameters
     = Ok (Some (mkTask (PyRequest (mkRequest line None)) PyNone)))
  ∧ (∀ returncode output,
       outcome = Exited returncode output → returncode ≠ 0%Z →
       submit_task host name project workflow parameters = Ok None)
  ∧ (outcome = NotStarted →
     submit_task host name project workflow parameters = Ok None).
Proof.
  intros Hfile outcome. unfold submit_task. rewrite Hfile.
  fold (runner_command name project workflow parameter_file_name). fold outcome.
  split; [|split].
  - intros output line -> Hutf Hlast. cbn [check_output].
    unfold decode_utf8, last_item. by rewrite Hutf, Hlast.
  - intros returncode output -> Hcode. by destruct returncode.
  - by intros ->.
Qed.

End SubmitFacts.

(** A runner that prints its log, then the new identifier and a line
    feed; and a runner that exits with status 1. *)
Lemma submit_task_outcomes_witness :
  let project := mkProject "p1" "Project" in
  let workflow := mkWorkflow "w1" (mkWorkflowBody "p1" "Align" "" "cwl") in
  let log := "INFO submitted" +:+ String LF ("zzzzz-xvhdp-1" +:+ blank_lines 1) in
  submit_task (mkHost (λ _ : unit, Ok "/tmp/p.json") (λ _, Exited 0 log))
              "run" project workflow tt
  = Ok (Some (mkTask (PyRequest (mkRequest "zzzzz-xvhdp-1" None)) PyNone))
  ∧ submit_task (mkHost (λ _ : unit, Ok "/tmp/p.json") (λ _, Exited 1 "failed"))
                "run" project workflow tt
    = Ok None.
Proof.
  intros project workflow log. split.
  - apply (proj1 (submit_task_outcomes
                    (mkHost (λ _ : unit, Ok "/tmp/p.json") (λ _, Exited 0 log))
                    "run" project workflow tt "/tmp/p.json" eq_refl) log);
      reflexivity.
  - apply (proj1 (proj2 (submit_task_outcomes
                    (mkHost (λ _ : unit, Ok "/tmp/p.json") (λ _, Exited 1 "failed"))
                    "run" project workflow tt "/tmp/p.json" eq_refl)) 1%Z "failed");
      [reflexivity | discriminate].
Defined.

(** C5 fails as stated: a runner that exits with status 0 and prints
    nothing (or blank lines only) has no last non-empty line, and
    submit_task lets the IndexError of the subscript escape: the result is
    neither a task nor null. *)
Lemma submit_task_empty_output_raises :
  submit_task (mkHost (λ _ : unit, Ok "/tmp/p.json") (λ _, Exited 0 ""))
              "run" (mkProject "p1" "Project")
              (mkWorkflow "w1" (mkWorkflowBody "p1" "Align" "" "cwl")) tt
  = Raise IndexError.
Proof. reflexivity. Qed.

(** ** The bulk copy *)





(** The copy of one file raises nothing but the I/O error. *)
Lemma collection_copy_raises (path : string) (source : list ArvFile)
    (overwrite : bool) (target : list ArvFile) (e : PyExn) :
  collection_copy path source overwrite target = Raise e → e = IOError.
Proof.
  unfold collection_copy. destruct (List.find _ source); [|congruence].
  destruct (existsb _ target); [|congruence]. destruct overwrite; congruence.
Qed.

(** The loop is the iteration of its turns, and always comes to its end. *)
Lemma copy_each_fold (source : list ArvFile) (overwrite : bool)
    (all_files target : list ArvFile) :
  copy_each source overwrite all_files target
  = Ok (copy_all source overwrite all_files target).
Proof.
  revert target. induction all_files as [|f rest IH]; intros target; [done|].
  cbn [copy_each copy_all fold_left]. fold (copy_all source overwrite).
  unfold copy_one at 2. change
    (stream_name f +:+ "/" +:+ name f) with (path_of f).
  destruct (bool_decide (name f ∉ reserved_names)); [|apply IH].
  destruct (collection_copy (path_of f) source overwrite target) as [t|e] eqn:Hcopy;
    [apply IH|].
  rewrite (collection_copy_raises _ _ _ _ _ Hcopy). apply IH.
Qed.





Section CopyAll.
Variables (source : list ArvFile) (overwrite : bool).
Local Abbreviation run := (copy_all source overwrite).




End CopyAll.

Lemma collection_load_ok (uuid : string) (api api2 : Api) (files : list ArvFile) :
  fst (collection_load uuid api) = Ok files →
  collections api2 = collections api →
  collection_load uuid api2 = (Ok files, sent (CollectionRead uuid) api2).
Proof.
  rewrite !collection_load_run. cbn [fst]. intros Hload ->.
  destruct (List.find _ (collections api)); [|done]. by injection Hload as ->.
Qed.

Lemma find_stored (api : Api) (uuid : string) (files : list ArvFile)
    (cs : list Collection) :
  List.find (λ c, String.eqb (coll_uuid c) uuid) (List.map (stored api uuid files) cs)
  = stored api uuid files <$> List.find (λ c, String.eqb (coll_uuid c) uuid) cs.
Proof.
  induction cs as [|c cs IH]; [done|]. cbn [List.map List.find].
  assert (Huuid : coll_uuid (stored api uuid files c) = coll_uuid c).
  { unfold stored. by destruct (String.eqb (coll_uuid c) uuid). }
  rewrite Huuid. by destruct (String.eqb (coll_uuid c) uuid).
Qed.

(** The whole bulk copy: three loads, the loop, one save. *)
Lemma copy_files_run (source_coll_uuid dest_coll_uuid : string) (overwrite : bool)
    (api : Api) (source_files dest_files : list ArvFile) :
  fst (collection_load source_coll_uuid api) = Ok source_files →
  fst (collection_load dest_coll_uuid api) = Ok dest_files →
  let files' := copy_all source_files overwrite source_files dest_files in
  _copy_files_from_source_dest_collection source_coll_uuid dest_coll_uuid overwrite api
  = (Ok tt,
     with_collections
       (List.map (stored api dest_coll_uuid files') (collections api))
       (sent (CollectionSave dest_coll_uuid)
          (sent (CollectionRead source_coll_uuid)
             (sent (CollectionRead dest_coll_uuid)
                (sent (CollectionRead source_coll_uuid) api))))).
Proof.
  intros Hsrc Hdst files'. unfold _copy_files_from_source_dest_collection.
  rewrite (bind_ok _ _ _ _ _ (collection_load_ok _ _ api _ Hsrc eq_refl)).
  rewrite (bind_ok _ _ _ _ _
             (collection_load_ok _ _ (sent (CollectionRead source_coll_uuid) api)
                _ Hdst eq_refl)).
  unfold _get_files_list_in_collection.
  rewrite (bind_ok _ _ _ _ _
             (bind_ok _ _ _ _ _
                (collection_load_ok _ _
                   (sent (CollectionRead dest_coll_uuid)
                      (sent (CollectionRead source_coll_uuid) api))
                   _ Hsrc eq_refl))).
  unfold ret, lift. rewrite copy_each_fold.
  unfold bind at 1. by rewrite collection_save_run.
Qed.





(** ** Copying a collection twice *)

Lemma stored_uuid (api : Api) (uuid : string) (files : list ArvFile) (c : Collection) :
  coll_uuid (stored api uuid files c) = coll_uuid c.
Proof. unfold stored. by destruct (String.eqb (coll_uuid c) uuid). Qed.

Lemma stored_body (api : Api) (uuid : string) (files : list ArvFile) (c : Collection) :
  coll_body (stored api uuid files c) = coll_body c.
Proof. unfold stored. by destruct (String.eqb (coll_uuid c) uuid). Qed.

(** Saving a collection changes neither the owner nor the name of any
    record, so the lookups by owner and name select the same records. *)
Lemma select_stored (api : Api) (uuid : string) (files : list ArvFile)
    (owner name : string) (cs : list Collection) :
  select coll_attr [FilterEq "owner_uuid" owner; FilterEq "name" name]
         (List.map (stored api uuid files) cs)
  = List.map (stored api uuid files)
             (select coll_attr [FilterEq "owner_uuid" owner; FilterEq "name" name] cs).
Proof.
  unfold select. induction cs as [|c cs IH]; [done|]. cbn [List.map List.filter].
  assert (Hsame : forallb (satisfies coll_attr (stored api uuid files c))
                          [FilterEq "owner_uuid" owner; FilterEq "name" name]
                  = forallb (satisfies coll_attr c)
                            [FilterEq "owner_uuid" owner; FilterEq "name" name]).
  { cbn. by rewrite stored_body. }
  rewrite Hsame. destruct (forallb (satisfies coll_attr c) _); cbn [List.map];
    [f_equal|]; exact IH.
Qed.

Lemma find_uuid_stored (api : Api) (uuid uuid' : string) (files : list ArvFile)
    (cs : list Collection) :
  List.find (λ c, String.eqb (coll_uuid c) uuid') (List.map (stored api uuid files) cs)
  = stored api uuid files <$> List.find (λ c, String.eqb (coll_uuid c) uuid') cs.
Proof.
  induction cs as [|c cs IH]; [done|]. cbn [List.map List.find].
  rewrite stored_uuid. by destruct (String.eqb (coll_uuid c) uuid').
Qed.

(** A record of the platform can be loaded by its identifier. *)
Lemma collection_load_member (api : Api) (c : Collection) :
  c ∈ collections api →
  ∃ files, fst (collection_load (coll_uuid c) api) = Ok files.
Proof.
  intros Hc. rewrite collection_load_run. cbn [fst].
  destruct (List.find _ (collections api)) as [c'|] eqn:Hfind; [by eexists|].
  apply list_elem_of_In in Hc. pose proof (find_none _ _ Hfind c Hc) as Hno.
  cbn in Hno. by rewrite String.eqb_refl in Hno.
Qed.

Lemma select_head_member {A} (attr_of : A → string → option string)
    (filters : list Filter) (rs : list A) (x : A) (more : list A) :
  select attr_of filters rs = x :: more → x ∈ rs.
Proof.
  intros Hsel. apply (select_In attr_of filters rs x). rewrite Hsel.
  apply elem_of_cons. by left.
Qed.

(** The bulk copy between two records of the platform ends well, and
    saves: every record keeps its identifier, owner and name. *)
Lemma copy_files_between_members (api api0 : Api) (rc d : Collection) :
  rc ∈ collections api → d ∈ collections api →
  content_hash api = content_hash api0 →
  ∃ files' api',
    _copy_files_from_source_dest_collection (coll_uuid rc) (coll_uuid d) false api
    = (Ok tt, api')
    ∧ collections api'
      = List.map (stored api0 (coll_uuid d) files') (collections api).
Proof.
  intros Hrc Hd Hhash.
  destruct (collection_load_member _ _ Hrc) as [sfiles Hs].
  destruct (collection_load_member _ _ Hd) as [dfiles Hdl].
  do 2 eexists. rewrite (copy_files_run _ _ false _ _ _ Hs Hdl).
  split; [reflexivity|]. cbn [collections with_collections].
  apply map_ext. intros c. unfold stored. by rewrite Hhash.
Qed.

(** The outcome of [copy_named] on any platform. *)
Lemma copy_named_cases (reference_project destination_project : Project)
    (collection_name : string) (api : Api) :
  let from_ref := [FilterEq "owner_uuid" (grp_uuid reference_project);
                   FilterEq "name" collection_name] in
  let from_dst := [FilterEq "owner_uuid" (grp_uuid destination_project);
                   FilterEq "name" collection_name] in
  match select coll_attr from_ref (collections api) with
  | [] =>
      copy_named reference_project destination_project collection_name api
      = (Ok None, sent (CollectionsList from_ref) api)
  | rc :: _ =>
      ∃ d files' api',
        copy_named reference_project destination_project collection_name api
        = (Ok (Some d), api')
        ∧ match select coll_attr from_dst (collections api) with
          | existing :: _ =>
              d = existing
              ∧ collections api'
                = List.map (stored api (coll_uuid d) files') (collections api)
          | [] =>
              owned_named (grp_uuid destination_project) collection_name d
              ∧ collections api'
                = List.map (stored api (coll_uuid d) files') (collections api ++ [d])
          end
  end.
Proof.
  intros from_ref from_dst. unfold copy_named. fold from_ref. fold from_dst.
  rewrite (bind_ok _ _ _ _ _ (collections_list_run from_ref api)). cbn [items].
  destruct (select coll_attr from_ref (collections api)) as [|rc more] eqn:Href; [done|].
  pose proof (select_head_member _ _ _ _ _ Href) as Hrc.
  rewrite (bind_ok _ _ _ _ _ (collections_list_run from_dst _)). cbn [items].
  change (collections (sent _ api)) with (collections api).
  destruct (select coll_attr from_dst (collections api)) as [|existing more'] eqn:Hdst.
  - rewrite (bind_ok _ _ _ _ _ (collections_create_run _ _)). cbn zeta.
    set (d := mkCollection _ _ _ _). set (api1 := with_minted _ _).
    assert (Hcs : collections api1 = collections api ++ [d]) by done.
    destruct (copy_files_between_members api1 api rc d) as (files' & api' & Hrun & Hcs');
      [rewrite Hcs; apply elem_of_app; by left
      |rewrite Hcs; apply elem_of_app; right; by apply list_elem_of_singleton
      |done|].
    exists d, files', api'. rewrite (bind_ok _ _ _ _ _ Hrun).
    split; [done|]. split; [done|]. by rewrite Hcs', Hcs.
  - unfold ret at 1. unfold bind at 1.
    set (api1 := sent _ (sent _ api)).
    pose proof (select_head_member _ _ _ _ _ Hdst) as Hex.
    destruct (copy_files_between_members api1 api rc existing)
      as (files' & api' & Hrun & Hcs'); [done|done|done|].
    exists existing, files', api'. rewrite (bind_ok _ _ _ _ _ Hrun).
    split; [done|]. split; [done|]. by rewrite Hcs'.
Qed.






(** * Further properties *)

(** ** Copying a folder *)

(** The collection a folder path names: its first segment. *)
Lemma copy_folder_absolute (reference_project : Project) (coll rest : string)
    (destination_project : Project) (api : Api) :
  free_of SLASH coll = true →
  copy_folder reference_project ("/" +:+ coll +:+ "/" +:+ rest) destination_project api
  = copy_named reference_project destination_project coll api.
Proof.
  intros Hfree. unfold copy_folder.
  change (startswith ("/" +:+ coll +:+ "/" +:+ rest) "/") with true.
  change ("/" +:+ coll +:+ "/" +:+ rest)
    with (String SLASH (coll +:+ String SLASH rest)).
  cbn [split]. rewrite Ascii.eqb_refl, (split_app_sep _ _ _ Hfree).
  reflexivity.
Qed.


(** X5. When the reference project has no collection called as the first
    segment of the folder, copy_folder returns None after that one
    lookup: the destination project is not consulted, nothing is created
    and nothing is saved. *)
Theorem copy_folder_without_reference (reference_project : Project)
    (coll rest : string) (destination_project : Project) (api : Api) :
  free_of SLASH coll = true →
  Forall (λ c, ¬ owned_named (grp_uuid reference_project) coll c) (collections api) →
  copy_folder reference_project ("/" +:+ coll +:+ "/" +:+ rest) destination_project api
  = (Ok None,
     sent (CollectionsList [FilterEq "owner_uuid" (grp_uuid reference_project);
                            FilterEq "name" coll]) api).
Proof.
  intros Hfree Hnone. rewrite (copy_folder_absolute _ _ _ _ _ Hfree).
  unfold copy_named.
  rewrite (bind_ok _ _ _ _ _ (collections_list_run _ api)). cbn [items].
  by rewrite (select_collection_none _ _ _ Hnone).
Qed.

Lemma copy_folder_without_reference_witness :
  let api := mkApi [mkCollection "c1" (mkCollectionBody "other" "genome" "" false) "h" []]
                   [] [] [] 0 (λ _, "h") [] in
  fst (copy_folder (mkProject "ref" "Reference") "/genome/hg38.fa"
                   (mkProject "dst" "Destination") api) = Ok None.
Proof.
  intros api.
  assert (Hnone : Forall (λ c, ¬ owned_named "ref" "genome" c) (collections api)).
  { apply Forall_cons. split; [|apply Forall_nil_2].
    intros [Howner _]. discriminate Howner. }
  exact (f_equal fst
           (copy_folder_without_reference (mkProject "ref" "Reference") "genome" "hg38.fa"
              (mkProject "dst" "Destination") api eq_refl Hnone)).
Defined.

(** X6. When the reference project has the collection and the destination
    project has none of that name, copy_folder creates exactly one
    collection: owned by the destination project, with the same name, the
    description of the reference collection and version preservation on;
    it returns that record as created, and afterwards the platform holds
    the records it held, in their order, followed by the new one. *)
Theorem copy_folder_creates_destination (reference_project : Project)
    (coll rest : string) (destination_project : Project) (api : Api)
    (pre : list Collection) (rc : Collection) (post : list Collection) :
  free_of SLASH coll = true →
  collections api = pre ++ rc :: post →
  Forall (λ c, ¬ owned_named (grp_uuid reference_project) coll c) pre →
  owned_named (grp_uuid reference_project) coll rc →
  Forall (λ c, ¬ owned_named (grp_uuid destination_project) coll c) (collections api) →
  let d := mkCollection (fresh_uuid "4zz18" (minted api))
             {| coll_owner_uuid := grp_uuid destination_project;
                coll_name := coll;
                coll_description := coll_description (coll_body rc);
                preserve_version := true |}
             (content_hash api []) [] in
  ∃ api' files',
    copy_folder reference_project ("/" +:+ coll +:+ "/" +:+ rest) destination_project api
    = (Ok (Some d), api')
    ∧ collections api'
      = List.map (stored api (coll_uuid d) files') (collections api ++ [d])
    ∧ List.map coll_uuid (collections api')
      = List.map coll_uuid (collections api) ++ [coll_uuid d].
Proof.
  intros Hfree Hcs Hpre Hrc Hdst d. rewrite (copy_folder_absolute _ _ _ _ _ Hfree).
  unfold copy_named.
  rewrite (bind_ok _ _ _ _ _ (collections_list_run _ api)). cbn [items].
  destruct (select_collection_first _ _ pre rc post Hpre Hrc) as [more Hsel].
  rewrite Hcs, Hsel, <- Hcs.
  rewrite (bind_ok _ _ _ _ _ (collections_list_run _ _)). cbn [items].
  change (collections (sent _ api)) with (collections api).
  rewrite (select_collection_none _ _ _ Hdst).
  rewrite (bind_ok _ _ _ _ _ (collections_create_run _ _)). cbn zeta.
  change (minted (sent _ (sent _ api))) with (minted api).
  change (content_hash (sent _ (sent _ api))) with (content_hash api).
  fold d. set (api1 := with_minted _ _).
  assert (Hcs1 : collections api1 = collections api ++ [d]) by done.
  destruct (copy_files_between_members api1 api rc d) as (files' & api' & Hrun & Hcs').
  { rewrite Hcs1, Hcs. apply elem_of_app. left. apply elem_of_app. right.
    apply elem_of_cons. by left. }
  { rewrite Hcs1. apply elem_of_app. right. by apply list_elem_of_singleton. }
  { done. }
  exists api', files'. rewrite (bind_ok _ _ _ _ _ Hrun).
  split; [done|]. rewrite Hcs', Hcs1. split; [done|].
  rewrite List.map_map, List.map_app. cbn [List.map]. rewrite stored_uuid.
  f_equal. apply map_ext. intros c. apply stored_uuid.
Qed.

Lemma copy_folder_creates_destination_witness :
  let rc := mkCollection "c1" (mkCollectionBody "ref" "genome" "hg38" false) "h"
                         [mkFile "." "hg38.fa" "ACGT"] in
  let api := mkApi [rc] [] [] [] 7 (λ _, "h") [] in
  ∃ api' files',
    copy_folder (mkProject "ref" "Reference") "/genome/hg38.fa"
                (mkProject "dst" "Destination") api
    = (Ok (Some (mkCollection "zzzzz-4zz18-7"
                   (mkCollectionBody "dst" "genome" "hg38" true) "h" [])), api')
    ∧ collections api'
      = List.map (stored api "zzzzz-4zz18-7" files')
          ([rc] ++ [mkCollection "zzzzz-4zz18-7"
                      (mkCollectionBody "dst" "genome" "hg38" true) "h" []])
    ∧ List.map coll_uuid (collections api') = ["c1"] ++ ["zzzzz-4zz18-7"].
Proof.
  intros rc api.
  assert (Hdst : Forall (λ c, ¬ owned_named "dst" "genome" c) (collections api)).
  { apply Forall_cons. split; [|apply Forall_nil_2].
    intros [Howner _]. discriminate Howner. }
  exact (copy_folder_creates_destination (mkProject "ref" "Reference") "genome" "hg38.fa"
           (mkProject "dst" "Destination") api [] rc []
           eq_refl eq_refl (Forall_nil_2 _) (conj eq_refl eq_refl) Hdst).
Defined.

(** ** More on the bulk copy *)









Lemma collection_load_failed (uuid : string) (api api2 : Api) (e : PyExn) :
  fst (collection_load uuid api) = Raise e →
  collections api2 = collections api →
  collection_load uuid api2 = (Raise ApiError, sent (CollectionRead uuid) api2).
Proof.
  rewrite !collection_load_run. cbn [fst]. intros Hload ->.
  by destruct (List.find _ (collections api)).
Qed.

(** X9. When the source or the destination identifier names no
    collection, the bulk copy raises the API error of the failed load and
    saves nothing: every collection of the platform is as it was. *)
Theorem copy_files_unknown_collection
    (source_coll_uuid dest_coll_uuid : string) (overwrite : bool) (api : Api) :
  fst (collection_load source_coll_uuid api) = Raise ApiError
  ∨ fst (collection_load dest_coll_uuid api) = Raise ApiError →
  fst (_copy_files_from_source_dest_collection
         source_coll_uuid dest_coll_uuid overwrite api) = Raise ApiError
  ∧ collections (snd (_copy_files_from_source_dest_collection
                        source_coll_uuid dest_coll_uuid overwrite api))
    = collections api.
Proof.
  intros Hfail. unfold _copy_files_from_source_dest_collection.
  destruct (fst (collection_load source_coll_uuid api)) as [sfiles|e] eqn:Hsrc.
  - destruct Hfail as [Hfail | Hfail]; [done|].
    rewrite (bind_ok _ _ _ _ _ (collection_load_ok _ _ api _ Hsrc eq_refl)).
    by rewrite (bind_raise _ _ _ _ _
                  (collection_load_failed _ _
                     (sent (CollectionRead source_coll_uuid) api) _ Hfail eq_refl)).
  - assert (Hsrc' : fst (collection_load source_coll_uuid api) = Raise ApiError).
    { rewrite Hsrc. rewrite collection_load_run in Hsrc. cbn [fst] in Hsrc.
      destruct (List.find _ (collections api)); congruence. }
    by rewrite (bind_raise _ _ _ _ _
                  (collection_load_failed _ _ api _ Hsrc' eq_refl)).
Qed.

Lemma copy_files_unknown_collection_witness :
  let api := mkApi [mkCollection "src" (mkCollectionBody "ref" "data" "" false) "h1" []]
                   [] [] [] 0 (λ _, "h") [] in
  fst (_copy_files_from_source_dest_collection "src" "nowhere" false api) = Raise ApiError
  ∧ collections (snd (_copy_files_from_source_dest_collection "src" "nowhere" false api))
    = collections api.
Proof.
  intros api.
  exact (copy_files_unknown_collection "src" "nowhere" false api (or_intror eq_refl)).
Defined.

(** ** Listing the files of a collection *)

Lemma basename_app (parent sub : string) :
  free_of SLASH sub = true → basename (parent +:+ "/" +:+ sub) = sub.
Proof.
  intros Hfree. unfold basename.
  change (parent +:+ "/" +:+ sub) with (parent +:+ String SLASH sub).
  rewrite split_app, (split_free _ _ Hfree). by rewrite last_snoc.
Qed.

(** X10. _get_files_list_in_collection lists all the files of the
    collection when no subdirectory is given, and also when the empty
    string is given; with a subdirectory name it keeps, in the order of
    the listing, exactly the files whose stream path ends in a directory
    of that name, at whatever depth: a file in "parent/sub" is listed for
    "sub". *)
Theorem get_files_list_in_collection_filter (collection_uuid : string) (api : Api)
    (files : list ArvFile) :
  fst (collection_load collection_uuid api) = Ok files →
  fst (_get_files_list_in_collection collection_uuid None api) = Ok files
  ∧ fst (_get_files_list_in_collection collection_uuid (Some "") api) = Ok files
  ∧ (∀ sub, sub ≠ "" →
       ∃ listed,
         fst (_get_files_list_in_collection collection_uuid (Some sub) api) = Ok listed
         ∧ listed `sublist_of` files
         ∧ (∀ f, f ∈ listed ↔ f ∈ files ∧ basename (stream_name f) = sub)
         ∧ (∀ f parent, f ∈ files → free_of SLASH sub = true →
              stream_name f = parent +:+ "/" +:+ sub → f ∈ listed)).
Proof.
  intros Hload.
  pose proof (collection_load_ok _ _ api _ Hload eq_refl) as Hrun.
  unfold _get_files_list_in_collection.
  rewrite !(bind_ok _ _ _ _ _ Hrun). split; [done|]. split; [done|].
  intros sub Hsub. destruct sub as [|c d]; [done|].
  set (keep := λ fl, String.eqb (basename (stream_name fl)) (String c d)).
  assert (Hin : ∀ f, f ∈ List.filter keep files
                     ↔ f ∈ files ∧ basename (stream_name f) = String c d).
  { intros f. rewrite !list_elem_of_In, filter_In. unfold keep.
    by rewrite String.eqb_eq. }
  exists (List.filter keep files). split; [by rewrite (bind_ok _ _ _ _ _ Hrun)|].
  split; [|split; [exact Hin|]].
  - clear. induction files as [|f files IH]; [done|]. cbn [List.filter].
    destruct (keep f); [by apply sublist_skip | by apply sublist_cons].
  - intros f parent Hf Hfree Hstream. apply Hin. split; [done|].
    rewrite Hstream. by apply basename_app.
Qed.

Lemma get_files_list_in_collection_filter_witness :
  let a := mkFile "./run1/sample" "reads.fq" "A" in
  let b := mkFile "./sample/qc" "report.txt" "B" in
  let c := mkFile "./run2/sample" "reads.fq" "C" in
  let api := mkApi [mkCollection "c1" (mkCollectionBody "p" "out" "" false) "h" [a; b; c]]
                   [] [] [] 0 (λ _, "h") [] in
  fst (_get_files_list_in_collection "c1" None api) = Ok [a; b; c]
  ∧ fst (_get_files_list_in_collection "c1" (Some "") api) = Ok [a; b; c]
  ∧ fst (_get_files_list_in_collection "c1" (Some "sample") api) = Ok [a; c].
Proof.
  intros a b c api.
  destruct (get_files_list_in_collection_filter "c1" api [a; b; c] eq_refl)
    as (Hall & Hempty & _).
  split; [exact Hall|]. split; [exact Hempty|]. reflexivity.
Defined.

(** ** Folder references *)

Lemma free_of_app_sep (sep : ascii) (a b : string) :
  free_of sep (a +:+ String sep b) = false.
Proof.
  induction a as [|c a IH]; rewrite ?app_cons; cbn [free_of String.append].
  - change ("" +:+ String sep b) with (String sep b). cbn [free_of].
    by rewrite Ascii.eqb_refl.
  - rewrite IH. apply andb_false_r.
Qed.

Lemma cut_last_slash_app (a leaf : string) :
  free_of SLASH leaf = true →
  cut_last_slash (a +:+ String SLASH leaf) = (a +:+ String SLASH EmptyString, leaf).
Proof.
  intros Hfree. induction a as [|c a IH].
  - change ("" +:+ String SLASH leaf) with (String SLASH leaf).
    cbn [cut_last_slash]. by rewrite Hfree, Ascii.eqb_refl.
  - rewrite !app_cons. cbn [cut_last_slash]. by rewrite free_of_app_sep, IH.
Qed.

Lemma cut_last_slash_free (leaf : string) :
  free_of SLASH leaf = true → cut_last_slash leaf = (EmptyString, leaf).
Proof.
  destruct leaf as [|c r]; [done|]. cbn [free_of cut_last_slash].
  intros [Hc Hr]%andb_true_iff. apply negb_true_iff in Hc. by rewrite Hr, Hc.
Qed.

Lemma rstrip_slash_app (x : string) :
  rstrip_slash (x +:+ String SLASH EmptyString) = rstrip_slash x.
Proof.
  induction x as [|c x IH].
  - change ("" +:+ String SLASH "") with (String SLASH ""). cbn [rstrip_slash].
    by rewrite Ascii.eqb_refl.
  - rewrite app_cons. cbn [rstrip_slash]. by rewrite IH.
Qed.

Lemma all_slashes_app (x y : string) :
  all_slashes (x +:+ y) = all_slashes x && all_slashes y.
Proof.
  induction x as [|c x IH]; [done|]. rewrite app_cons. cbn [all_slashes].
  by rewrite IH, andb_assoc.
Qed.

(** A non-empty string that does not begin with a slash is not made of
    slashes. *)
Lemma not_all_slashes (dir : string) :
  dir ≠ "" → no_leading_slash dir → all_slashes dir = false.
Proof.
  unfold no_leading_slash. destruct dir as [|c r]; [done|]. intros _.
  cbn [lstrip_slash all_slashes]. destruct (Ascii.eqb c SLASH) eqn:Hc; [|done].
  intros Hstrip. exfalso. apply Ascii.eqb_eq in Hc as ->.
  assert (Hlen : ∀ s, String.length (lstrip_slash s) ≤ String.length s).
  { clear. induction s as [|c s IH]; [done|]. cbn [lstrip_slash].
    destruct (Ascii.eqb c SLASH); cbn [String.length]; lia. }
  specialize (Hlen r). rewrite Hstrip in Hlen. cbn [String.length] in Hlen. lia.
Qed.

(** The directory and the leaf of a folder path. *)
Lemma os_path_split_folder (dir leaf : string) :
  dir ≠ "" → no_leading_slash dir → no_trailing_slash dir →
  free_of SLASH leaf = true →
  os_path_split ("/" +:+ dir +:+ "/" +:+ leaf) = ("/" +:+ dir, leaf).
Proof.
  intros Hne Hlead Htrail Hfree. unfold os_path_split.
  change ("/" +:+ dir +:+ "/" +:+ leaf)
    with (String SLASH dir +:+ String SLASH leaf).
  rewrite (cut_last_slash_app _ _ Hfree), app_cons.
  cbn [String.eqb negb andb all_slashes]. rewrite Ascii.eqb_refl. cbn [andb].
  rewrite all_slashes_app, (not_all_slashes _ Hne Hlead). cbn [andb negb].
  cbn [rstrip_slash]. rewrite rstrip_slash_app, Htrail.
  destruct dir as [|c r]; [done|]. done.
Qed.

(** X11. For a path "/dir/leaf" (a directory part [dir] that neither
    begins nor ends with a slash, a last segment without slash)
    get_folder_id looks up the collection called [dir] - the whole
    directory part, also when it has several segments - in the project:
    it returns "keep:" followed by the identifier (not the content hash)
    of the first such collection, a slash and the leaf; and None, without
    raising, when the project has no such collection. *)
Theorem get_folder_id_directory_and_leaf (project : Project) (api : Api)
    (dir leaf : string) :
  dir ≠ "" → no_leading_slash dir → no_trailing_slash dir →
  free_of SLASH leaf = true →
  let looked_up :=
    sent (CollectionsList [FilterEq "owner_uuid" (grp_uuid project);
                           FilterEq "name" dir]) api in
  (∀ pre c post,
     collections api = pre ++ c :: post →
     Forall (λ x, ¬ owned_named (grp_uuid project) dir x) pre →
     owned_named (grp_uuid project) dir c →
     get_folder_id project ("/" +:+ dir +:+ "/" +:+ leaf) api
     = (Ok (Some ("keep:" +:+ coll_uuid c +:+ "/" +:+ leaf)), looked_up))
  ∧ (Forall (λ x, ¬ owned_named (grp_uuid project) dir x) (collections api) →
     get_folder_id project ("/" +:+ dir +:+ "/" +:+ leaf) api = (Ok None, looked_up)).
Proof.
  intros Hne Hlead Htrail Hfree looked_up. unfold get_folder_id.
  rewrite (os_path_split_folder _ _ Hne Hlead Htrail Hfree).
  change (lstrip_slash ("/" +:+ dir)) with (lstrip_slash dir). rewrite Hlead.
  rewrite (bind_ok _ _ _ _ _ (collections_list_run _ api)). cbn [items]. split.
  - intros pre c post Hcs Hpre Hc.
    destruct (select_collection_first _ _ pre c post Hpre Hc) as [more Hsel].
    by rewrite Hcs, Hsel.
  - intros Hnone. by rewrite (select_collection_none _ _ _ Hnone).
Qed.

Lemma get_folder_id_directory_and_leaf_witness :
  let project := mkProject "p1" "Project" in
  let nested := mkCollection "c2" (mkCollectionBody "p1" "coll1/sub" "" false) "H2" [] in
  let coll1 := mkCollection "c1" (mkCollectionBody "p1" "coll1" "" false) "H1" [] in
  let api := mkApi [coll1; nested] [] [] [] 0 (λ _, "") [] in
  fst (get_folder_id project "/coll1/sub/leaf" api) = Ok (Some "keep:c2/leaf")
  ∧ fst (get_folder_id project "/coll9/leaf" api) = Ok None.
Proof.
  intros project nested coll1 api. split.
  - assert (Hpre : Forall (λ x, ¬ owned_named "p1" "coll1/sub" x) [coll1]).
    { apply Forall_cons. split; [|apply Forall_nil_2].
      intros [_ Hname]. discriminate Hname. }
    exact (f_equal fst
             (proj1 (get_folder_id_directory_and_leaf project api "coll1/sub" "leaf"
                       ltac:(discriminate) eq_refl eq_refl eq_refl)
                [coll1] nested [] eq_refl Hpre (conj eq_refl eq_refl))).
  - assert (Hnone : Forall (λ x, ¬ owned_named "p1" "coll9" x) (collections api)).
    { repeat (apply Forall_cons; split; [intros [_ Hname]; discriminate Hname|]).
      apply Forall_nil_2. }
    exact (f_equal fst
             (proj2 (get_folder_id_directory_and_leaf project api "coll9" "leaf"
                       ltac:(discriminate) eq_refl eq_refl eq_refl) Hnone)).
Defined.

(** X12. For a path of one segment, "/leaf" or "leaf", the directory part
    is empty and get_folder_id looks up a collection whose name is the
    empty string: it returns None unless the project has a collection
    with the empty name, so the collection called [leaf] is never found
    this way. *)
Theorem get_folder_id_single_segment (project : Project) (api : Api) (leaf : string) :
  free_of SLASH leaf = true →
  Forall (λ x, ¬ owned_named (grp_uuid project) "" x) (collections api) →
  let looked_up :=
    sent (CollectionsList [FilterEq "owner_uuid" (grp_uuid project);
                           FilterEq "name" ""]) api in
  get_folder_id project ("/" +:+ leaf) api = (Ok None, looked_up)
  ∧ get_folder_id project leaf api = (Ok None, looked_up).
Proof.
  intros Hfree Hnone looked_up.
  assert (Hroot : os_path_split ("/" +:+ leaf) = ("/", leaf)).
  { unfold os_path_split. change ("/" +:+ leaf) with ("" +:+ String SLASH leaf).
    by rewrite (cut_last_slash_app _ _ Hfree). }
  assert (Hbare : os_path_split leaf = ("", leaf)).
  { unfold os_path_split. by rewrite (cut_last_slash_free _ Hfree). }
  unfold get_folder_id. rewrite Hroot, Hbare.
  change (lstrip_slash "/") with "". change (lstrip_slash "") with "".
  rewrite (bind_ok _ _ _ _ _ (collections_list_run _ api)). cbn [items].
  by rewrite (select_collection_none _ _ _ Hnone).
Qed.

Lemma get_folder_id_single_segment_witness :
  let project := mkProject "p1" "Project" in
  let coll1 := mkCollection "c1" (mkCollectionBody "p1" "coll1" "" false) "H1" [] in
  let api := mkApi [coll1] [] [] [] 0 (λ _, "") [] in
  fst (get_folder_id project "/coll1" api) = Ok None.
Proof.
  intros project coll1 api.
  assert (Hnone : Forall (λ x, ¬ owned_named "p1" "" x) (collections api)).
  { apply Forall_cons. split; [intros [_ Hname]; discriminate Hname|apply Forall_nil_2]. }
  exact (f_equal fst
           (proj1 (get_folder_id_single_segment project api "coll1" eq_refl Hnone))).
Defined.

(** ** More on file references *)

(** [get_file_id] once the segments of the path are known and the lookup
    has found a collection. *)
Lemma get_file_id_selected (project : Project) (file_path : string) (api : Api)
    (coll : string) (rest : list string) (c : Collection) (more : list Collection) :
  startswith file_path "http" = false → startswith file_path "keep" = false →
  folder_tree_of file_path = Ok (coll :: rest) →
  select coll_attr [FilterEq "owner_uuid" (grp_uuid project); FilterEq "name" coll]
         (collections api) = c :: more →
  fst (get_file_id project file_path api)
  = Ok ("keep:" +:+ portable_data_hash c +:+ "/" +:+ join "/" rest).
Proof.
  intros Hhttp Hkeep Htree Hsel. unfold get_file_id. rewrite Hhttp, Hkeep. cbn [orb].
  unfold bind, lift. rewrite Htree. cbn [item lookup list_lookup].
  rewrite collections_list_run. cbn [items]. by rewrite Hsel.
Qed.

(** X13. Edge paths of get_file_id.  The empty path raises IndexError
    before any lookup (it has no first segment).  A path that is only
    the collection, "/coll" or "coll", resolves to "keep:H/" with nothing
    after the slash. *)
Theorem get_file_id_edge_paths (project : Project) (api : Api) :
  get_file_id project "" api = (Raise IndexError, api)
  ∧ (∀ coll pre c post,
       free_of SLASH coll = true → coll ≠ "" →
       startswith coll "http" = false → startswith coll "keep" = false →
       collections api = pre ++ c :: post →
       Forall (λ x, ¬ owned_named (grp_uuid project) coll x) pre →
       owned_named (grp_uuid project) coll c →
       fst (get_file_id project ("/" +:+ coll) api)
       = Ok ("keep:" +:+ portable_data_hash c +:+ "/")
       ∧ fst (get_file_id project coll api)
         = Ok ("keep:" +:+ portable_data_hash c +:+ "/")).
Proof.
  split; [done|].
  intros coll pre c post Hfree Hne Hhttp Hkeep Hcs Hpre Hc.
  destruct (select_collection_first _ _ pre c post Hpre Hc) as [more Hsel].
  rewrite <- Hcs in Hsel. split.
  - apply (get_file_id_selected project _ api coll [] c more); [done|done| |done].
    unfold folder_tree_of. change ("/" +:+ coll) with (String SLASH coll).
    cbn [split]. rewrite Ascii.eqb_refl, (split_free _ _ Hfree). done.
  - apply (get_file_id_selected project _ api coll [] c more); [done|done| |done].
    unfold folder_tree_of. rewrite (split_free _ _ Hfree). cbn [item lookup list_lookup].
    by destruct coll.
Qed.

Lemma get_file_id_edge_paths_witness :
  let project := mkProject "p1" "Project" in
  let coll1 := mkCollection "c1" (mkCollectionBody "p1" "coll1" "" false) "H" [] in
  let api := mkApi [coll1] [] [] [] 0 (λ _, "") [] in
  fst (get_file_id project "/coll1" api) = Ok "keep:H/"
  ∧ fst (get_file_id project "coll1" api) = Ok "keep:H/".
Proof.
  intros project coll1 api.
  exact (proj2 (get_file_id_edge_paths project api) "coll1" [] coll1 []
           eq_refl ltac:(discriminate) eq_refl eq_refl eq_refl
           (Forall_nil_2 _) (conj eq_refl eq_refl)).
Defined.

(** X14. After copy_folder has returned a destination record for
    "/coll/rest", get_file_id resolves that same path in the destination
    project instead of raising "not found": to the content hash the
    platform computed when the copied files were saved. *)
Theorem copy_folder_then_get_file_id (reference_project : Project)
    (coll rest : string) (destination_project : Project) (api api' : Api)
    (d : Collection) :
  free_of SLASH coll = true →
  copy_folder reference_project ("/" +:+ coll +:+ "/" +:+ rest) destination_project api
  = (Ok (Some d), api') →
  ∃ files',
    fst (collection_load (coll_uuid d) api') = Ok files'
    ∧ fst (get_file_id destination_project ("/" +:+ coll +:+ "/" +:+ rest) api')
      = Ok ("keep:" +:+ content_hash api files' +:+ "/" +:+ rest).
Proof.
  intros Hfree. rewrite (copy_folder_absolute _ _ _ _ _ Hfree). intros Hrun.
  pose proof (copy_named_cases reference_project destination_project coll api) as Hcases.
  cbn zeta in Hcases.
  destruct (select coll_attr _ (collections api)) as [|rc more] eqn:Href.
  { rewrite Hcases in Hrun. discriminate Hrun. }
  destruct Hcases as (d0 & files' & api0 & Hrun0 & Hshape).
  rewrite Hrun0 in Hrun. injection Hrun as -> ->.
  assert (Hstate : ∃ cs more',
             collections api' = List.map (stored api (coll_uuid d) files') cs
             ∧ d ∈ cs
             ∧ select coll_attr [FilterEq "owner_uuid" (grp_uuid destination_project);
                                 FilterEq "name" coll] cs = d :: more').
  { destruct (select coll_attr [FilterEq "owner_uuid" (grp_uuid destination_project);
                                FilterEq "name" coll] (collections api))
      as [|existing more'] eqn:Hdst.
    - destruct Hshape as [Hd Hcs]. exists (collections api ++ [d]), [].
      split; [done|]. split.
      { apply elem_of_app. right. by apply list_elem_of_singleton. }
      rewrite select_app, Hdst. cbn [app]. unfold select. cbn [List.filter].
      by rewrite (proj2 (select_owned_named_iff _ _ _) Hd).
    - destruct Hshape as [-> Hcs]. exists (collections api), more'.
      split; [done|]. split; [|done]. by apply (select_head_member _ _ _ _ _ Hdst). }
  destruct Hstate as (cs & more' & Hcs & Hd & Hsel).
  assert (Hload : fst (collection_load (coll_uuid d) api') = Ok files').
  { rewrite collection_load_run. cbn [fst]. rewrite Hcs, find_stored.
    destruct (List.find _ cs) as [c|] eqn:Hfind.
    - apply find_some in Hfind as [_ Huuid]. cbn [fmap option_fmap option_map].
      unfold stored. by rewrite Huuid.
    - apply list_elem_of_In in Hd. pose proof (find_none _ _ Hfind d Hd) as Hno.
      cbn in Hno. by rewrite String.eqb_refl in Hno. }
  exists files'. split; [exact Hload|].
  pose proof (join_split SLASH rest) as Hjoin. unfold SLASH in Hjoin.
  rewrite <- Hjoin at 2.
  assert (Hhash : portable_data_hash (stored api (coll_uuid d) files' d)
                  = content_hash api files').
  { unfold stored. by rewrite String.eqb_refl. }
  rewrite <- Hhash.
  apply (get_file_id_selected destination_project _ api' coll (split SLASH rest)
           (stored api (coll_uuid d) files' d)
           (List.map (stored api (coll_uuid d) files') more')); [done|done| |].
  - by apply folder_tree_of_absolute.
  - by rewrite Hcs, select_stored, Hsel.
Qed.

Lemma copy_folder_then_get_file_id_witness :
  let rc := mkCollection "c1" (mkCollectionBody "ref" "genome" "hg38" false) "h"
                         [mkFile "." "hg38.fa" "ACGT"] in
  let api := mkApi [rc] [] [] [] 7 (λ files, pretty (length files)) [] in
  let api' := snd (copy_folder (mkProject "ref" "Reference") "/genome/hg38.fa"
                               (mkProject "dst" "Destination") api) in
  ∃ files',
    fst (collection_load "zzzzz-4zz18-7" api') = Ok files'
    ∧ fst (get_file_id (mkProject "dst" "Destination") "/genome/hg38.fa" api')
      = Ok ("keep:" +:+ pretty (length files') +:+ "/" +:+ "hg38.fa").
Proof.
  intros rc api api'.
  exact (copy_folder_then_get_file_id (mkProject "ref" "Reference") "genome" "hg38.fa"
           (mkProject "dst" "Destination") api api'
           (mkCollection "zzzzz-4zz18-7" (mkCollectionBody "dst" "genome" "hg38" true)
                         "0" [])
           eq_refl eq_refl).
Defined.

(** ** More on task states *)

Lemma container_requests_get_run (uuid : string) (api : Api) :
  container_requests_get uuid api
  = (match List.find (λ r, String.eqb (cr_uuid r) uuid) (container_requests api) with
     | Some r => Ok r
     | None => Raise ApiError
     end, sent (ContainerRequestsGet uuid) api).
Proof.
  unfold container_requests_get, bind, send. cbn.
  by destruct (List.find _ (container_requests api)).
Qed.

Lemma containers_get_run (uuid : option string) (api : Api) :
  containers_get uuid api
  = (match uuid with
     | Some u =>
         match List.find (λ c, String.eqb (ctr_uuid c) u) (containers api) with
         | Some c => Ok c
         | None => Raise ApiError
         end
     | None => Raise ApiError
     end, sent (ContainersGet uuid) api).
Proof.
  unfold containers_get, bind, send. cbn. destruct uuid as [u|]; [|done].
  by destruct (List.find _ (containers api)).
Qed.

Lemma same_records_refl (api : Api) : same_records api api.
Proof. unfold same_records. by destruct api. Qed.

Lemma same_records_sent (c : ApiCall) (api api' : Api) :
  same_records api api' → same_records api (sent c api').
Proof. unfold same_records. intros ->. by destruct api. Qed.

(** The elements of a split are free of the separator. *)
Lemma split_free_of (sep : ascii) (s x : string) :
  x ∈ split sep s → free_of sep x = true.
Proof.
  revert x. induction s as [|c r IH]; intros x.
  - intros ->%list_elem_of_singleton. done.
  - cbn [split]. destruct (Ascii.eqb c sep) eqn:Hc.
    + intros [-> | Hin]%elem_of_cons; [done | by apply IH].
    + destruct (split sep r) as [|h t] eqn:E; [by destruct (split_nonempty sep r)|].
      intros [-> | Hin]%elem_of_cons.
      * cbn [free_of]. rewrite Hc. cbn [negb andb]. apply IH, elem_of_cons. by left.
      * apply IH, elem_of_cons. by right.
Qed.

(** The last non-empty line is not empty and has no line feed in it. *)
Lemma last_nonempty_line_shape (output line : string) :
  last (nonempty_lines output) = Some line →
  line ≠ "" ∧ free_of LF line = true.
Proof.
  intros [l Hl]%last_Some.
  assert (Hin : line ∈ nonempty_lines output).
  { rewrite Hl. apply elem_of_app. right. by apply list_elem_of_singleton. }
  unfold nonempty_lines in Hin. apply list_elem_of_filter in Hin as [Hne Hin].
  split; [done|]. by apply (split_free_of LF output).
Qed.

Section SubmitMore.
Context {Params : Type}.
Implicit Types (host : Host Params) (parameters : Params).

(** What a submission that returned a task has returned. *)
Lemma submit_task_returned host (name : string) (project : Project)
    (workflow : Workflow) parameters (task : Task) :
  submit_task host name project workflow parameters = Ok (Some task) →
  ∃ file output line,
    write_parameters host parameters = Ok file
    ∧ run host (runner_command name project workflow file) = Exited 0 output
    ∧ utf8_ok [] output = true
    ∧ last (nonempty_lines output) = Some line
    ∧ task = mkTask (PyRequest (mkRequest line None)) PyNone.
Proof.
  unfold submit_task.
  destruct (write_parameters host parameters) as [file|e] eqn:Hfile; [|done].
  fold (runner_command name project workflow file).
  destruct (run host (runner_command name project workflow file))
    as [returncode output|] eqn:Hrun; [|done].
  destruct returncode; [|done|done]. cbn [check_output].
  unfold decode_utf8, last_item.
  destruct (utf8_ok [] output) eqn:Hutf; [|done].
  destruct (last (nonempty_lines output)) as [line|] eqn:Hlast; [|done].
  intros [= <-]. by exists file, output, line.
Qed.

(** X15. The identifier in a task returned by submit_task is never empty
    and never contains a line feed, and the task has no execution record
    (None) and no container identifier yet. *)
Theorem submit_task_identifier_shape host (name : string) (project : Project)
    (workflow : Workflow) parameters (task : Task) :
  submit_task host name project workflow parameters = Ok (Some task) →
  ∃ line,
    task = mkTask (PyRequest (mkRequest line None)) PyNone
    ∧ line ≠ "" ∧ free_of LF line = true.
Proof.
  intros (file & output & line & _ & _ & _ & Hlast & ->)%submit_task_returned.
  exists line. split; [done|]. by apply (last_nonempty_line_shape output).
Qed.

(** X16. A task as submit_task returns it cannot be asked for its state
    without a refresh: it has no execution record, and get_task_state
    raises TypeError on subscripting None, without sending any request. *)
Theorem submit_task_then_get_task_state host (name : string) (project : Project)
    (workflow : Workflow) parameters (task : Task) (api : Api) :
  submit_task host name project workflow parameters = Ok (Some task) →
  get_task_state task false api = (Raise TypeError, api).
Proof.
  intros (file & output & line & _ & _ & _ & _ & ->)%submit_task_returned. done.
Qed.

End SubmitMore.

Lemma submit_task_identifier_shape_witness :
  let host := mkHost (λ _ : unit, Ok "/tmp/p.json")
                     (λ _, Exited 0 ("zzzzz-xvhdp-1" +:+ blank_lines 2)) in
  ∃ line,
    mkTask (PyRequest (mkRequest "zzzzz-xvhdp-1" None)) PyNone
    = mkTask (PyRequest (mkRequest line None)) PyNone
    ∧ line ≠ "" ∧ free_of LF line = true.
Proof.
  intros host.
  exact (submit_task_identifier_shape host "run" (mkProject "p1" "Project")
           (mkWorkflow "w1" (mkWorkflowBody "p1" "Align" "" "cwl")) tt
           (mkTask (PyRequest (mkRequest "zzzzz-xvhdp-1" None)) PyNone) eq_refl).
Defined.

Lemma submit_task_then_get_task_state_witness :
  let host := mkHost (λ _ : unit, Ok "/tmp/p.json")
                     (λ _, Exited 0 ("zzzzz-xvhdp-1" +:+ blank_lines 1)) in
  let api := mkApi [] [] [] [] 0 (λ _, "") [] in
  get_task_state (mkTask (PyRequest (mkRequest "zzzzz-xvhdp-1" None)) PyNone) false api
  = (Raise TypeError, api).
Proof.
  intros host api.
  exact (submit_task_then_get_task_state host "run" (mkProject "p1" "Project")
           (mkWorkflow "w1" (mkWorkflowBody "p1" "Align" "" "cwl")) tt
           (mkTask (PyRequest (mkRequest "zzzzz-xvhdp-1" None)) PyNone) api eq_refl).
Defined.

(** X18. With refresh on, get_task_state derives the state from the
    records the platform holds now: it fetches the submission record by
    the identifier in the task, then the container that record names, and
    returns the state of that container together with the task holding
    both fetched records; whatever execution record the task held before
    plays no part. *)
Theorem get_task_state_refresh_fetches (task : Task) (api : Api)
    (uuid cuuid : string) (r : ContainerRequest) (c : Container) :
  val_uuid (container_request task) = Ok uuid →
  fst (container_requests_get uuid api) = Ok r →
  cr_container_uuid r = Some cuuid →
  fst (containers_get (Some cuuid) api) = Ok c →
  let fresh := mkTask (PyRequest r) (PyContainer c) in
  get_task_state task true api
  = (match derive_state fresh with
     | Ok st => Ok (fresh, st)
     | Raise e => Raise e
     end,
     sent (ContainersGet (Some cuuid)) (sent (ContainerRequestsGet uuid) api)).
Proof.
  intros Huuid Hr Hcuuid Hc fresh.
  apply (get_task_state_after_refresh task fresh true); [|done].
  unfold refresh_task. unfold bind at 1. unfold lift. rewrite Huuid.
  rewrite container_requests_get_run in Hr. cbn [fst] in Hr.
  rewrite containers_get_run in Hc. cbn [fst] in Hc.
  unfold bind at 1. rewrite container_requests_get_run.
  destruct (List.find _ (container_requests api)) as [r'|]; [|done].
  injection Hr as ->. cbn [container_request val_container_uuid].
  unfold bind at 1. rewrite Hcuuid.
  unfold bind at 1. rewrite containers_get_run.
  change (containers (sent _ api)) with (containers api).
  destruct (List.find _ (containers api)) as [c'|]; [|done].
  by injection Hc as ->.
Qed.

Lemma get_task_state_refresh_fetches_witness :
  let r := mkRequest "r1" (Some "k1") in
  let c := mkContainer "k1" (Some 0%Z) "Complete" in
  let api := mkApi [] [] [r] [c] 0 (λ _, "") [] in
  let stale := mkTask (PyRequest (mkRequest "r1" None))
                      (PyContainer (mkContainer "k0" None "Running")) in
  fst (get_task_state stale true api)
  = Ok (mkTask (PyRequest r) (PyContainer c), "Complete").
Proof.
  intros r c api stale.
  exact (f_equal fst
           (get_task_state_refresh_fetches stale api "r1" "k1" r c
              eq_refl eq_refl eq_refl eq_refl)).
Defined.



Lemma derive_state_range (task : Task) (st : string) :
  derive_state task = Ok st → st ∈ task_states.
Proof.
  unfold derive_state, task_states.
  destruct (val_exit_code (container task)) as [code|]; [|done].
  destruct (code_is code 0); [intros [= <-]; rewrite !elem_of_cons; tauto|].
  destruct (code_is code 1); [intros [= <-]; rewrite !elem_of_cons; tauto|].
  destruct (val_state (container task)) as [s|]; [|done].
  destruct (String.eqb s "Running"); [intros [= <-]; rewrite !elem_of_cons; tauto|].
  destruct (String.eqb s "Cancelled"); [intros [= <-]; rewrite !elem_of_cons; tauto|].
  case_bool_decide; [intros [= <-]; rewrite !elem_of_cons; tauto|done].
Qed.

Lemma refresh_task_same_records (task : Task) (api : Api) :
  same_records api (snd (refresh_task task api)).
Proof.
  unfold refresh_task. unfold bind at 1. unfold lift.
  destruct (val_uuid (container_request task)) as [uuid|]; [|apply same_records_refl].
  unfold bind at 1. rewrite container_requests_get_run.
  destruct (List.find _ (container_requests api)) as [r|];
    [|apply same_records_sent, same_records_refl].
  cbn [container_request val_container_uuid]. unfold bind at 1.
  unfold bind at 1. rewrite containers_get_run.
  destruct (cr_container_uuid r) as [u|];
    [|apply same_records_sent, same_records_sent, same_records_refl].
  change (containers (sent _ api)) with (containers api).
  destruct (List.find _ (containers api));
    apply same_records_sent, same_records_sent, same_records_refl.
Qed.

(** X20. Whenever get_task_state returns, what it returns is one of the
    five states Complete, Failed, Running, Cancelled and Queued; and
    whether it returns or raises, with or without refresh, it changes no
    record of the platform (only the trace of requests can differ, and
    without refresh not even the trace). *)
Theorem get_task_state_range_and_read_only (task : Task) (refresh : bool) (api : Api) :
  (∀ task' st api',
     get_task_state task refresh api = (Ok (task', st), api') → st ∈ task_states)
  ∧ same_records api (snd (get_task_state task refresh api))
  ∧ snd (get_task_state task false api) = api.
Proof.
  split; [|split].
  - intros task' st api'. unfold get_task_state. unfold bind at 1.
    destruct ((if refresh then refresh_task task else ret task) api) as [[t|e] a];
      [|done].
    unfold bind, lift, ret. destruct (derive_state t) as [s|e] eqn:Hs; [|done].
    intros [= <- <- <-]. by apply (derive_state_range t).
  - unfold get_task_state. unfold bind at 1. destruct refresh.
    + pose proof (refresh_task_same_records task api) as Hsame.
      destruct (refresh_task task api) as [[t|e] a]; [|done].
      unfold bind, lift, ret. by destruct (derive_state t).
    + unfold ret at 1. unfold bind, lift, ret.
      destruct (derive_state task); apply same_records_refl.
  - unfold get_task_state, bind, lift, ret. by destruct (derive_state task).
Qed.

(** ** The encoder and the decoder *)

Section EncoderFacts.
Context {V : Type}.
Implicit Types (t : ArvadosTask V) (obj : gmap string V).

(** X21. What the encoder makes of a task, the decoder turns back into
    that task; two different tasks never get the same mapping; and an
    object that is not a task is refused with TypeError. *)
Theorem encoder_decoder_roundtrip :
  (∀ t, ∃ obj, encoder_default (ATask t) = Ok obj
               ∧ arvados_task_decoder obj = DecodedTask t)
  ∧ (∀ t1 t2, encoder_default (ATask t1) = encoder_default (ATask t2) → t1 = t2)
  ∧ encoder_default (Foreign (V := V)) = Raise TypeError.
Proof.
  split; [|split; [|done]].
  - intros t. exists (to_dict t). split; [done|]. apply decoder_to_dict.
  - intros t1 t2 Heq.
    pose proof (f_equal (λ r, match r with
                               | Ok obj => Some (arvados_task_decoder obj)
                               | Raise _ => None
                               end) Heq) as Hdec.
    unfold encoder_default in Hdec. cbv beta iota in Hdec.
    rewrite !decoder_to_dict in Hdec. by injection Hdec.
Qed.

(** X22. The decoder looks at the two keys only: two mappings with the
    same values under 'container_request' and 'container' decode alike,
    so a JSON object that has both keys and others besides becomes a
    task and its other entries are lost. *)
Theorem decoder_ignores_other_keys obj obj' :
  obj !! "container_request" = obj' !! "container_request" →
  obj !! "container" = obj' !! "container" →
  is_Some (obj !! "container_request") → is_Some (obj !! "container") →
  ∃ t, arvados_task_decoder obj = DecodedTask t
       ∧ arvados_task_decoder obj' = DecodedTask t
       ∧ to_dict t ⊆ obj.
Proof.
  intros Hcr Hc [cr Hcr1] [c Hc1].
  exists (mkTask cr c). unfold arvados_task_decoder.
  rewrite <- Hcr, <- Hc, Hcr1, Hc1. split; [done|]. split; [done|].
  unfold to_dict. apply insert_subseteq_l; [done|].
  apply insert_subseteq_l; [done|]. apply map_empty_subseteq.
Qed.
End EncoderFacts.

Lemma decoder_ignores_other_keys_witness :
  let task := mkTask 1%Z 2%Z in
  ∃ t, arvados_task_decoder (<["priority" := 7%Z]> (to_dict task)) = DecodedTask t
       ∧ arvados_task_decoder (to_dict task) = DecodedTask t
       ∧ to_dict t ⊆ <["priority" := 7%Z]> (to_dict task).
Proof.
  intros task.
  apply (decoder_ignores_other_keys (<["priority" := 7%Z]> (to_dict task)) (to_dict task)).
  - by rewrite lookup_insert_ne.
  - by rewrite lookup_insert_ne.
  - rewrite lookup_insert_ne by done. rewrite to_dict_container_request. by eexists.
  - rewrite lookup_insert_ne by done. rewrite to_dict_container. by eexists.
Defined.

(** ** More on workflows *)





(** ** Projects *)

Lemma select_project_iff (attr operand : string) (p : Project) :
  forallb (satisfies grp_attr p) [FilterEq attr operand] = true
  ↔ grp_attr p attr = Some operand.
Proof.
  simpl. rewrite andb_true_r. destruct (grp_attr p attr) as [v|]; [|done].
  rewrite String.eqb_eq. split; congruence.
Qed.

(** X25. get_project_by_name and get_project_by_id return the first
    project of the registry with that name (that identifier), in the
    order of the listing, so with several matches the first wins; and
    None, without raising, exactly when no project matches. *)
Theorem get_project_by_name_and_id_first_match (site : Site) (wanted : string) :
  (∀ pre p post,
     groups site = pre ++ p :: post →
     Forall (λ q, grp_name q ≠ wanted) pre → grp_name p = wanted →
     get_project_by_name site wanted = Some p)
  ∧ (get_project_by_name site wanted = None
     ↔ Forall (λ q, grp_name q ≠ wanted) (groups site))
  ∧ (∀ pre p post,
       groups site = pre ++ p :: post →
       Forall (λ q, grp_uuid q ≠ wanted) pre → grp_uuid p = wanted →
       get_project_by_id site wanted = Some p)
  ∧ (get_project_by_id site wanted = None
     ↔ Forall (λ q, grp_uuid q ≠ wanted) (groups site)).
Proof.
  assert (Hfirst : ∀ attr proj pre p post,
            (∀ q, grp_attr q attr = Some (proj q)) →
            groups site = pre ++ p :: post →
            Forall (λ q, proj q ≠ wanted) pre → proj p = wanted →
            ∃ more, select grp_attr [FilterEq attr wanted] (groups site) = p :: more).
  { intros attr proj pre p post Hattr Hgs Hpre Hp. eexists. rewrite Hgs.
    apply select_first.
    - eapply Forall_impl; [exact Hpre|]. intros q Hq.
      rewrite select_project_iff, Hattr. congruence.
    - apply select_project_iff. rewrite Hattr. congruence. }
  assert (Hnone : ∀ attr (proj : Project → string),
            (∀ q, grp_attr q attr = Some (proj q)) →
            select grp_attr [FilterEq attr wanted] (groups site) = []
            ↔ Forall (λ q, proj q ≠ wanted) (groups site)).
  { intros attr proj Hattr. split.
    - intros Hsel. apply Forall_forall. intros q Hq Heq.
      assert (Hin : q ∈ select grp_attr [FilterEq attr wanted] (groups site)).
      { apply select_In. split; [done|]. apply select_project_iff.
        rewrite Hattr. congruence. }
      rewrite Hsel in Hin. by apply elem_of_nil in Hin.
    - intros Hall. apply select_none. eapply Forall_impl; [exact Hall|].
      intros q Hq. rewrite select_project_iff, Hattr. congruence. }
  unfold get_project_by_name, get_project_by_id, groups_list. cbn [items].
  split; [|split; [|split]].
  - intros pre p post Hgs Hpre Hp.
    destruct (Hfirst "name" grp_name pre p post (λ _, eq_refl) Hgs Hpre Hp) as [more ->].
    done.
  - rewrite <- (Hnone "name" grp_name (λ _, eq_refl)).
    destruct (select grp_attr _ (groups site)); split; congruence.
  - intros pre p post Hgs Hpre Hp.
    destruct (Hfirst "uuid" grp_uuid pre p post (λ _, eq_refl) Hgs Hpre Hp) as [more ->].
    done.
  - rewrite <- (Hnone "uuid" grp_uuid (λ _, eq_refl)).
    destruct (select grp_attr _ (groups site)); split; congruence.
Qed.

(** X26. get_project has three outcomes.  Outside of a container the API
    error of the first call is caught and the result is None.  In a
    container that no submission record names, the subscript of the empty
    list raises IndexError, which is not caught and reaches the caller.
    Otherwise the result is the project, looked up by identifier, that
    owns the first submission record naming the container (None when the
    registry has no such project). *)
Theorem get_project_outcomes (site : Site) (api : Api) :
  (current_container site = None → get_project site api = Ok None)
  ∧ (∀ current,
       current_container site = Some current →
       Forall (λ r, cr_container_uuid r ≠ Some (ctr_uuid current))
              (container_requests api) →
       get_project site api = Raise IndexError)
  ∧ (∀ current pre r post,
       current_container site = Some current →
       container_requests api = pre ++ r :: post →
       Forall (λ r, cr_container_uuid r ≠ Some (ctr_uuid current)) pre →
       cr_container_uuid r = Some (ctr_uuid current) →
       get_project site api
       = Ok (get_project_by_id site (req_owner_uuid (request_meta site (cr_uuid r))))).
Proof.
  unfold get_project, containers_current, requests_of_container.
  split; [|split].
  - by intros ->.
  - intros current -> Hnone. cbn [items].
    assert (Hsel : List.filter
                     (λ r, bool_decide (cr_container_uuid r = Some (ctr_uuid current)))
                     (container_requests api) = []).
    { induction Hnone as [|r rs Hr _ IH]; [done|]. cbn [List.filter].
      by rewrite (bool_decide_eq_false_2 _ Hr). }
    by rewrite Hsel.
  - intros current pre r post -> Hrs Hpre Hr. cbn [items]. rewrite Hrs.
    assert (Hsel : ∃ more,
              List.filter
                (λ r, bool_decide (cr_container_uuid r = Some (ctr_uuid current)))
                (pre ++ r :: post) = r :: more).
    { exists (List.filter
                (λ r, bool_decide (cr_container_uuid r = Some (ctr_uuid current))) post).
      clear Hrs. induction Hpre as [|q pre Hq _ IH]; cbn [app List.filter].
      - by rewrite (bool_decide_eq_true_2 _ Hr).
      - by rewrite (bool_decide_eq_false_2 _ Hq). }
    destruct Hsel as [more ->]. done.
Qed.

Lemma get_project_outcomes_witness :
  let lab := mkProject "p1" "Lab" in
  let here := mkContainer "k1" None "Running" in
  let meta := λ _ : string, mkMeta "align" "p1" 1%Z in
  get_project (mkSite [lab] meta None) (mkApi [] [] [] [] 0 (λ _, "") []) = Ok None
  ∧ get_project (mkSite [lab] meta (Some here)) (mkApi [] [] [] [] 0 (λ _, "") [])
    = Raise IndexError
  ∧ get_project (mkSite [lab] meta (Some here))
                (mkApi [] [] [mkRequest "r1" (Some "k1")] [here] 0 (λ _, "") [])
    = Ok (Some lab).
Proof.
  intros lab here meta. split; [|split].
  - exact (proj1 (get_project_outcomes (mkSite [lab] meta None)
                    (mkApi [] [] [] [] 0 (λ _, "") [])) eq_refl).
  - exact (proj1 (proj2 (get_project_outcomes (mkSite [lab] meta (Some here))
                           (mkApi [] [] [] [] 0 (λ _, "") [])))
             here eq_refl (Forall_nil_2 _)).
  - exact (proj2 (proj2 (get_project_outcomes (mkSite [lab] meta (Some here))
                           (mkApi [] [] [mkRequest "r1" (Some "k1")] [here] 0 (λ _, "") [])))
             here [] (mkRequest "r1" (Some "k1")) [] eq_refl eq_refl
             (Forall_nil_2 _) eq_refl).
Defined.

(** ** The tasks of a project *)








(** ** Deleting a task *)

(** X29. delete_task removes the submission record of the task from the
    platform and nothing else: the other submission records and all the
    containers stay.  It is not idempotent: a second delete_task of the
    same task raises the API error, and so does get_task_state with
    refresh, while without refresh the handle still reports the state of
    the execution record it holds. *)
Theorem delete_task_then (task : Task) (api : Api) (uuid : string) (r : ContainerRequest) :
  val_uuid (container_request task) = Ok uuid →
  fst (container_requests_get uuid api) = Ok r →
  ∃ api',
    delete_task task api = (Ok tt, api')
    ∧ (∀ q, q ∈ container_requests api'
            ↔ q ∈ container_requests api ∧ cr_uuid q ≠ uuid)
    ∧ containers api' = containers api
    ∧ delete_task task api' = (Raise ApiError, api')
    ∧ fst (get_task_state task true api') = Raise ApiError
    ∧ fst (get_task_state task false api') = fst (get_task_state task false api).
Proof.
  intros Huuid Hr. rewrite container_requests_get_run in Hr. cbn [fst] in Hr.
  destruct (List.find _ (container_requests api)) as [r'|] eqn:Hfind; [|done].
  assert (Hex : existsb (λ q, String.eqb (cr_uuid q) uuid) (container_requests api) = true).
  { apply existsb_exists. exists r'. by apply find_some in Hfind. }
  set (kept := List.filter (λ q, negb (String.eqb (cr_uuid q) uuid))
                           (container_requests api)).
  assert (Hkept : ∀ q, q ∈ kept ↔ q ∈ container_requests api ∧ cr_uuid q ≠ uuid).
  { intros q. unfold kept. rewrite !list_elem_of_In, filter_In, negb_true_iff.
    by rewrite String.eqb_neq. }
  assert (Hgone : existsb (λ q, String.eqb (cr_uuid q) uuid) kept = false).
  { apply not_true_is_false. intros (q & Hq & Heq)%existsb_exists.
    apply list_elem_of_In, Hkept in Hq as [_ Hne]. by apply String.eqb_eq in Heq. }
  assert (Hfind' : List.find (λ q, String.eqb (cr_uuid q) uuid) kept = None).
  { destruct (List.find _ kept) as [q|] eqn:Hq; [|done].
    apply find_some in Hq as [Hq Heq].
    apply list_elem_of_In, Hkept in Hq as [_ Hne]. by apply String.eqb_eq in Heq. }
  exists (with_container_requests kept api).
  assert (Hdel : ∀ a, delete_task task a = container_requests_delete uuid a).
  { intros a. unfold delete_task, bind, lift. by rewrite Huuid. }
  split; [|split; [|split; [|split; [|split]]]].
  - rewrite Hdel. unfold container_requests_delete. by rewrite Hex.
  - exact Hkept.
  - done.
  - rewrite Hdel. unfold container_requests_delete.
    cbn [container_requests with_container_requests]. by rewrite Hgone.
  - unfold get_task_state, refresh_task.
    unfold bind at 1. unfold bind at 1. unfold lift. rewrite Huuid.
    unfold bind at 1. rewrite container_requests_get_run.
    cbn [container_requests with_container_requests]. by rewrite Hfind'.
  - unfold get_task_state, bind, ret, lift. by destruct (derive_state task).
Qed.

Lemma delete_task_then_witness :
  let r1 := mkRequest "r1" (Some "k1") in
  let r2 := mkRequest "r2" (Some "k1") in
  let k1 := mkContainer "k1" (Some 0%Z) "Complete" in
  let task := mkTask (PyRequest r1) (PyContainer k1) in
  let api := mkApi [] [] [r1; r2] [k1] 0 (λ _, "") [] in
  ∃ api',
    delete_task task api = (Ok tt, api')
    ∧ (∀ q, q ∈ container_requests api' ↔ q ∈ [r1; r2] ∧ cr_uuid q ≠ "r1")
    ∧ containers api' = [k1]
    ∧ delete_task task api' = (Raise ApiError, api')
    ∧ fst (get_task_state task true api') = Raise ApiError
    ∧ fst (get_task_state task false api') = fst (get_task_state task false api).
Proof.
  intros r1 r2 k1 task api.
  exact (delete_task_then task api "r1" r1 eq_refl eq_refl).
Defined.

(** ** Detecting the platform *)

(** X30. detect answers true exactly when the variable ARVADOS_API_HOST
    is set to a non-empty value - set to the empty string it counts as
    unset - and no other variable of the environment has any bearing on
    the answer. *)
Theorem detect_host_variable (environ : gmap string string) :
  (detect environ = true
   ↔ ∃ host, environ !! "ARVADOS_API_HOST" = Some host ∧ host ≠ "")
  ∧ detect (<["ARVADOS_API_HOST" := ""]> environ) = false
  ∧ (∀ variable value,
       variable ≠ "ARVADOS_API_HOST" →
       detect (<[variable := value]> environ) = detect environ
       ∧ detect (delete variable environ) = detect environ).
Proof.
  unfold detect. split; [|split].
  - destruct (environ !! "ARVADOS_API_HOST") as [[|c host]|].
    + split; [done|]. by intros (h & [= <-] & Hne).
    + split; [|done]. intros _. by eexists.
    + split; [done|]. by intros (h & [=] & _).
  - by rewrite lookup_insert_eq.
  - intros variable value Hne.
    by rewrite lookup_insert_ne, lookup_delete_ne.
Qed.

(** ** Instances of the properties of repeated copies *)



